(** * MTAS: role-based directory and SMS routing

    A shallow embedding of the TypeScript sources
      - models/Role.ts, models/User.ts
      - services/firestore.ts, services/twilio.ts
      - functions/handleSms.ts, functions/userManagement.ts,
        functions/userManagementApi.ts
    together with the properties of the routing engine, the contact
    directory and the fan-out that the design document states.

    Modelling conventions.
      - A [Role] is the string a TypeScript string enum is at run time.
      - The [users] collection is a finite map from document references to
        [User] records; a query lists the matching documents in the order of
        [map_to_list] (the store-defined order).
      - Asynchronous functions are computations in a state-and-exception
        monad [M] over a [World]: the collection, the batches committed so
        far and the SMS handed to the gateway so far.  The gateway is an
        oracle telling, for each send, whether Twilio accepts it.
      - The document store itself is taken to answer every request; gateway
        failures are modelled. *)

From Stdlib Require Import Ascii.
From stdpp Require Import gmap strings pretty list fin_maps sorting.

(** ** models/Role.ts *)

Module Role.
(** Run-time values of the members of [enum Role]. *)
Definition SUBSCRIBER : string := "SUBSCRIBER".
Definition STAFF : string := "STAFF".
Definition SUPERVISOR : string := "SUPERVISOR".

(** Modelled from the spec: services/twilio.ts reads [Role.ADMIN], a member
    that models/Role.ts does not declare.  It is the name [SUPERVISOR] had
    in the earlier index.ts; the design document (section 9) takes ADMIN and
    SUPERVISOR to be one role, named inconsistently. *)
Definition ADMIN : string := SUPERVISOR.

(** [Object.values(Role)] *)
Definition values : list string := [SUBSCRIBER; STAFF; SUPERVISOR].
End Role.

(** ** models/User.ts *)

Record User := mkUser {
  name : string;
  phoneNumber : string;
  roles : list string
}.

(** [Array.prototype.includes] on an array of strings *)
Definition includes (l : list string) (x : string) : bool :=
  bool_decide (x ∈ l).

(** ** The world the asynchronous code runs in *)

(** A Firestore document reference. *)
Abbreviation DocRef := nat (only parsing).

(** One operation queued on a [WriteBatch]. *)
Inductive WriteOp :=
| BatchDelete (ref : DocRef)
| BatchUpdateRoles (ref : DocRef) (newRoles : list string).

(** One call of [twilioClient.messages.create]. *)
Record Sms := mkSms {
  to : string;
  body : string;
  delivered : bool
}.

Record World := mkWorld {
  users : gmap nat User;          (* the [users] collection *)
  reads : nat;                    (* queries answered so far *)
  commits : list (list WriteOp);  (* batches committed so far *)
  outbox : list Sms               (* SMS handed to Twilio so far *)
}.

(** The message gateway: the outcome of the [n]-th send ever made, given
    its destination and text. *)
Abbreviation Gateway := (nat → string → string → bool) (only parsing).

(** What a rejected promise carries. *)
Inductive Error :=
| JsError (message : string)
| GatewaySendFailure.

Inductive Result (A : Type) :=
| Ok (a : A)
| Throw (e : Error).
Arguments Ok {A} a.
Arguments Throw {A} e.

Definition M (A : Type) : Type := World → Result A * World.

Definition ret {A} (a : A) : M A := λ w, (Ok a, w).

Definition throw {A} (e : Error) : M A := λ w, (Throw e, w).

Definition bind {A B} (k : A → M B) (m : M A) : M B :=
  λ w, match m w with
       | (Ok a, w') => k a w'
       | (Throw e, w') => (Throw e, w')
       end.

#[global] Instance M_ret : MRet M := @ret.
#[global] Instance M_bind : MBind M := @bind.

(** [try { m } catch (error) { h error }] *)
Definition try_catch {A} (m : M A) (h : Error → M A) : M A :=
  λ w, match m w with
       | (Ok a, w') => (Ok a, w')
       | (Throw e, w') => h e w'
       end.

(** [Promise.all(l.map(f))]: every [f a] is started, in list order, whatever
    the others do; the joined promise is rejected as soon as one of them is,
    and fulfilled when all are. *)
Fixpoint Promise_all_map {A} (f : A → M unit) (l : list A) : M unit :=
  match l with
  | [] => ret tt
  | a :: l' =>
      λ w, let '(r, w1) := f a w in
           let '(rs, w2) := Promise_all_map f l' w1 in
           (match r with Ok _ => rs | Throw e => Throw e end, w2)
  end.

(** ** services/firestore.ts *)

(** The documents of a collection, in the order a query returns them:
    ascending document reference. *)
Definition doc_le (a b : nat * User) : Prop := (a.1 ≤ b.1)%nat.

#[global] Instance doc_le_dec a b : Decision (doc_le a b) :=
  decide (a.1 ≤ b.1)%nat.

Definition docs (m : gmap nat User) : list (nat * User) :=
  merge_sort doc_le (map_to_list m).

(** [.where('phoneNumber', '==', phoneNumber)] *)
Definition where_phoneNumber (p : string) (m : gmap nat User)
  : list (nat * User) :=
  filter (λ d, phoneNumber d.2 = p) (docs m).

(** [.where('roles', 'array-contains', role)] *)
Definition where_roles_contains (r : string) (m : gmap nat User)
  : list (nat * User) :=
  filter (λ d, r ∈ roles d.2) (docs m).

(** [query.get()] *)
Definition get (q : gmap nat User → list (nat * User)) : M (list (nat * User)) :=
  λ w, (Ok (q (users w)),
        mkWorld (users w) (S (reads w)) (commits w) (outbox w)).

(** [{ roles }] merged into a document by [update]. *)
Definition withRoles (rs : list string) (u : User) : User :=
  mkUser (name u) (phoneNumber u) rs.

(** [batch.commit()]: all queued operations or none.  An update of a
    document that does not exist makes the whole commit fail. *)
Definition apply_op (m : gmap nat User) (op : WriteOp) : gmap nat User :=
  match op with
  | BatchDelete ref => delete ref m
  | BatchUpdateRoles ref rs => alter (withRoles rs) ref m
  end.

Definition op_ok (m : gmap nat User) (op : WriteOp) : bool :=
  match op with
  | BatchDelete _ => true
  | BatchUpdateRoles ref _ => bool_decide (is_Some (m !! ref))
  end.

Definition commit (batch : list WriteOp) : M unit :=
  λ w, if forallb (op_ok (users w)) batch
       then (Ok tt, mkWorld (foldl apply_op (users w) batch) (reads w)
                            (commits w ++ [batch]) (outbox w))
       else (Throw (JsError "NOT_FOUND: No document to update"), w).

(** [collection.add(data)]: a new document under a fresh reference. *)
Definition add (data : User) : M unit :=
  λ w, (Ok tt, mkWorld (<[fresh (dom (users w)) := data]> (users w))
                       (reads w) (commits w) (outbox w)).

Definition getUserByPhoneNumber (phone : string) : M (option User) :=
  snapshot ← get (λ m, take 1 (where_phoneNumber phone m));
  match snapshot with
  | [] => mret None
  | doc :: _ => mret (Some doc.2)
  end.

Definition addUser (nm phone : string) (rs : list string) : M unit :=
  add (mkUser nm phone rs).

Definition removeUser (phone : string) : M unit :=
  snapshot ← get (where_phoneNumber phone);
  commit (map (λ doc, BatchDelete doc.1) snapshot).

Definition updateUserRoles (phone : string) (rs : list string) : M unit :=
  snapshot ← get (where_phoneNumber phone);
  match snapshot with
  | [] => throw (JsError ("No user found with phone number " +:+ phone))
  | _ => commit (map (λ doc, BatchUpdateRoles doc.1 rs) snapshot)
  end.

Definition listUsers : M (list User) :=
  snapshot ← get docs;
  mret (map snd snapshot).

Definition listUsersByRole (role : string) : M (list User) :=
  snapshot ← get (where_roles_contains role);
  mret (map snd snapshot).

(** ** services/twilio.ts *)

(** The line feed of the template literals. *)
Definition LF : string := String (ascii_of_nat 10) EmptyString.

Section Twilio.
Context (gw : Gateway).

Definition sendSms (dest text : string) : M unit :=
  λ w, let ok := gw (length (outbox w)) dest text in
       (if ok then Ok tt else Throw GatewaySendFailure,
        mkWorld (users w) (reads w) (commits w)
                (outbox w ++ [mkSms dest text ok])).

Definition forwardMessageToAdmins (fromNumber message : string) : M unit :=
  admins ← listUsersByRole Role.ADMIN;
  Promise_all_map
    (λ admin, sendSms (phoneNumber admin)
                      ("Message from " +:+ fromNumber +:+ ":" +:+ LF +:+ message))
    admins.

Definition broadcastMessage (fromNumber message : string) : M unit :=
  subscribers ← listUsersByRole Role.SUBSCRIBER;
  sender ← getUserByPhoneNumber fromNumber;
  let senderName := match sender with
                    | Some s => name s
                    | None => fromNumber
                    end in
  Promise_all_map
    (λ subscriber, sendSms (phoneNumber subscriber)
                      ("Broadcast from " +:+ senderName +:+ ":" +:+ LF +:+ message))
    (filter (λ user, phoneNumber user ≠ fromNumber) subscribers).

(** Modelled from the spec: functions/handleSms.ts imports
    [forwardMessageToSupervisor] from '../services'; neither that index nor
    a function of that name is among the sources.  ADMIN and SUPERVISOR
    being one role (design document, section 9), it is
    [forwardMessageToAdmins] of services/twilio.ts under its later name. *)
Definition forwardMessageToSupervisor := forwardMessageToAdmins.
End Twilio.

(** ** HTTP plumbing (express [Request] / [Response]) *)

(** A JSON value of a request body. *)
#[warnings="-register-all"] Inductive Json :=
| JNull
| JBool (b : bool)
| JNumber (n : Z)
| JString (s : string)
| JArray (elems : list Json)
| JObject (fields : list (string * Json)).

(** What a template literal [`${v}`] prints for a JSON value. *)
Fixpoint js_toString (v : Json) : string :=
  match v with
  | JNull => "null"
  | JBool true => "true"
  | JBool false => "false"
  | JNumber n => pretty n
  | JString s => s
  | JArray elems =>
      String.concat ","
        (map (λ e, match e with JNull => "" | _ => js_toString e end) elems)
  | JObject _ => "[object Object]"
  end.

(** What the handlers hand to [res]. *)
Inductive ResBody :=
| Send (text : string)
| JsonError (error : string)
| JsonMessage (message : string)
| JsonUsers (us : list User)
| JsonUser (u : User).

Record Response := mkResponse {
  status : nat;
  headers : list (string * string);
  resBody : ResBody
}.

Definition json (code : nat) (b : ResBody) : Response := mkResponse code [] b.

(** An [async (req, res) => { try { ... } catch (error) { ... } }] handler:
    the response it sends and the world it leaves. *)
Definition Handler : Type := World → Response * World.

Definition handler (tryBlock : M Response) (onError : Response) : Handler :=
  λ w, match tryBlock w with
       | (Ok r, w') => (r, w')
       | (Throw _, w') => (onError, w')
       end.

(** JavaScript truthiness of a possibly missing string: [!x] holds for
    [undefined] and for the empty string. *)
Definition truthy (x : option string) : option string :=
  match x with
  | Some s => if bool_decide (s = "") then None else Some s
  | None => None
  end.

(** ** functions/handleSms.ts *)

(** The fields of Twilio's webhook that the handler reads. *)
Record SmsRequest := mkSmsRequest {
  sms_From : option string;
  sms_Body : option string
}.

(** [!user] *)
Definition isNull (user : option User) : bool :=
  match user with
  | Some _ => false
  | None => true
  end.

(** [user.roles.includes(role)], which the handler evaluates for a [user]
    that is not null only. *)
Definition hasRole (user : option User) (role : string) : bool :=
  match user with
  | Some u => includes (roles u) role
  | None => false
  end.

Definition twiml : Response :=
  mkResponse 200 [("Content-Type", "text/xml")] (Send "<Response></Response>").

Section HandleSms.
Context (gw : Gateway).

Definition handleSmsFunction (req : SmsRequest) : Handler :=
  handler
    (match truthy (sms_From req), truthy (sms_Body req) with
     | Some from, Some body =>
         user ← getUserByPhoneNumber from;
         (if isNull user
             || (hasRole user Role.SUBSCRIBER
                 && negb (hasRole user Role.STAFF)
                 && negb (hasRole user Role.SUPERVISOR))
          then
            forwardMessageToSupervisor gw from body;;
            if negb (isNull user)
            then sendSms gw from
                   "Your message has been forwarded to the administrators."
            else mret tt
          else if hasRole user Role.STAFF || hasRole user Role.SUPERVISOR
          then
            broadcastMessage gw from body;;
            sendSms gw from
              "Your message has been broadcast to all subscribers."
          else mret tt);;
         mret twiml
     | _, _ => mret (mkResponse 400 [] (Send "Missing required parameters"))
     end)
    (mkResponse 500 [] (Send "Internal Server Error")).
End HandleSms.

(** ** functions/userManagement.ts and functions/userManagementApi.ts *)

(** [req.body] of the user-management requests.  [name] and [phoneNumber]
    are strings when present, as [User] declares them; [roles] is any JSON
    value. *)
Record UserBody := mkUserBody {
  body_name : option string;
  body_phoneNumber : option string;
  body_roles : option Json
}.

Record Request := mkRequest {
  method : string;
  path : string;
  reqBody : UserBody
}.

(** [Object.values(Role).includes(role)] *)
Definition isRole (role : Json) : bool :=
  match role with
  | JString s => includes Role.values s
  | _ => false
  end.

(** The loop [for (const role of roles) if (!isRole(role)) { ...; return }]:
    the first token it stops at, if any. *)
Definition firstInvalidRole (rs : list Json) : option Json :=
  find (λ role, negb (isRole role)) rs.

(** The validated array, as the [Role[]] it is passed on as. *)
Definition asRoles (rs : list Json) : list string :=
  omap (λ role, match role with JString s => Some s | _ => None end) rs.

(** [req.path.split('/').pop()] *)
Fixpoint lastSegmentFrom (cur s : string) : string :=
  match s with
  | EmptyString => cur
  | String c s' =>
      if bool_decide (c = "/"%char) then lastSegmentFrom "" s'
      else lastSegmentFrom (cur +:+ String c "") s'
  end.

Definition lastSegment (p : string) : string := lastSegmentFrom "" p.

(** [error instanceof Error && error.message.includes('No user found')] *)
Definition isNoUserFound (e : Error) : bool :=
  match e with
  | JsError message =>
      bool_decide (is_Some (String.index 0 "No user found" message))
  | GatewaySendFailure => false
  end.

Definition methodNotAllowed : Response := json 405 (JsonError "Method not allowed").
Definition internalError : Response := json 500 (JsonError "Internal server error").
Definition userNotFound : Response := json 404 (JsonError "User not found").
Definition phoneRequired : Response := json 400 (JsonError "Phone number is required").

(** The add-user handlers after the method check: the statements that
    [addUserFunction] and [router.post('/users')] share word for word. *)
Definition addUserSteps (b : UserBody) : M Response :=
  match truthy (body_name b), truthy (body_phoneNumber b), body_roles b with
  | Some nm, Some phone, Some (JArray rs) =>
      match firstInvalidRole rs with
      | Some role =>
          mret (json 400 (JsonError ("Invalid role: " +:+ js_toString role)))
      | None =>
          existingUser ← getUserByPhoneNumber phone;
          match existingUser with
          | Some _ =>
              mret (json 409
                      (JsonError "User with this phone number already exists"))
          | None =>
              addUser nm phone (asRoles rs);;
              mret (json 201 (JsonMessage "User added successfully"))
          end
      end
  | _, _, _ =>
      mret (json 400 (JsonError "Name, phone number, and roles are required"))
  end.

(** The update handlers once the phone number is known: the statements
    that [updateUserFunction] and [router.put('/users/:phoneNumber')] share
    word for word.  A [Some] answer of the inner [try] is its [return]. *)
Definition updateUserSteps (phone : string) (b : UserBody) : M Response :=
  match body_roles b with
  | Some (JArray rs) =>
      match firstInvalidRole rs with
      | Some role =>
          mret (json 400 (JsonError ("Invalid role: " +:+ js_toString role)))
      | None =>
          answered ←
            try_catch
              (updateUserRoles phone (asRoles rs);; mret None)
              (λ error, if isNoUserFound error then mret (Some userNotFound)
                        else throw error);
          match answered with
          | Some response => mret response
          | None => mret (json 200 (JsonMessage "User updated successfully"))
          end
      end
  | _ => mret (json 400 (JsonError "Roles are required and must be an array"))
  end.

(** The delete handlers once the phone number is known: the statements
    that [deleteUserFunction] and [router.delete('/users/:phoneNumber')]
    share word for word. *)
Definition deleteUserSteps (phone : string) : M Response :=
  existingUser ← getUserByPhoneNumber phone;
  match existingUser with
  | None => mret userNotFound
  | Some _ =>
      removeUser phone;;
      mret (json 200 (JsonMessage "User removed successfully"))
  end.

Definition listUsersFunction (req : Request) : Handler :=
  handler
    (if negb (bool_decide (method req = "GET")) then mret methodNotAllowed
     else us ← listUsers; mret (json 200 (JsonUsers us)))
    internalError.

Definition getUserFunction (req : Request) : Handler :=
  handler
    (if negb (bool_decide (method req = "GET")) then mret methodNotAllowed
     else match truthy (Some (lastSegment (path req))) with
          | None => mret phoneRequired
          | Some phone =>
              user ← getUserByPhoneNumber phone;
              match user with
              | None => mret userNotFound
              | Some u => mret (json 200 (JsonUser u))
              end
          end)
    internalError.

Definition addUserFunction (req : Request) : Handler :=
  handler
    (if negb (bool_decide (method req = "POST")) then mret methodNotAllowed
     else addUserSteps (reqBody req))
    internalError.

Definition updateUserFunction (req : Request) : Handler :=
  handler
    (if negb (bool_decide (method req = "PUT")) then mret methodNotAllowed
     else match truthy (Some (lastSegment (path req))) with
          | None => mret phoneRequired
          | Some phone => updateUserSteps phone (reqBody req)
          end)
    internalError.

Definition deleteUserFunction (req : Request) : Handler :=
  handler
    (if negb (bool_decide (method req = "DELETE")) then mret methodNotAllowed
     else match truthy (Some (lastSegment (path req))) with
          | None => mret phoneRequired
          | Some phone => deleteUserSteps phone
          end)
    internalError.

(** The express router of userManagementApi.ts: the method and the
    [:phoneNumber] parameter are settled by the route. *)
Module router.
Definition get_users : Handler :=
  handler (us ← listUsers; mret (json 200 (JsonUsers us))) internalError.

Definition get_user (phoneNumber : string) : Handler :=
  handler
    (match truthy (Some phoneNumber) with
     | None => mret phoneRequired
     | Some phone =>
         user ← getUserByPhoneNumber phone;
         match user with
         | None => mret userNotFound
         | Some u => mret (json 200 (JsonUser u))
         end
     end)
    internalError.

Definition post_users (b : UserBody) : Handler :=
  handler (addUserSteps b) internalError.

Definition put_user (phoneNumber : string) (b : UserBody) : Handler :=
  handler
    (match truthy (Some phoneNumber) with
     | None => mret phoneRequired
     | Some phone => updateUserSteps phone b
     end)
    internalError.

Definition delete_user (phoneNumber : string) : Handler :=
  handler
    (match truthy (Some phoneNumber) with
     | None => mret phoneRequired
     | Some phone => deleteUserSteps phone
     end)
    internalError.
End router.

(** ** Vocabulary of the statements *)

(** The directory: every contact, in store order. *)
Definition contacts (w : World) : list User := map snd (docs (users w)).

(** The contacts whose role set contains [r]. *)
Definition holding (r : string) (w : World) : list User :=
  filter (λ u, r ∈ roles u) (contacts w).

(** The world after one more query has been answered. *)
Definition afterRead (w : World) : World :=
  mkWorld (users w) (S (reads w)) (commits w) (outbox w).

(** The entries that sending [msgs] (destination, text), in this order,
    appends to an outbox that holds [n] entries. *)
Fixpoint attempts (gw : Gateway) (n : nat) (msgs : list (string * string))
  : list Sms :=
  match msgs with
  | [] => []
  | (d, t) :: rest => mkSms d t (gw n d t) :: attempts gw (S n) rest
  end.

Definition escalationText (fromNumber message : string) : string :=
  "Message from " +:+ fromNumber +:+ ":" +:+ LF +:+ message.

Definition broadcastText (senderName message : string) : string :=
  "Broadcast from " +:+ senderName +:+ ":" +:+ LF +:+ message.

(** The sends of an escalation of [message] from [fromNumber]. *)
Definition escalation (gw : Gateway) (w : World) (fromNumber message : string)
  : list Sms :=
  attempts gw (length (outbox w))
    (map (λ admin, (phoneNumber admin, escalationText fromNumber message))
         (holding Role.SUPERVISOR w)).

(** The sends of a broadcast of [message] from [fromNumber], signed
    [senderName]. *)
Definition broadcast (gw : Gateway) (w : World)
    (fromNumber senderName message : string) : list Sms :=
  attempts gw (length (outbox w))
    (map (λ subscriber,
            (phoneNumber subscriber, broadcastText senderName message))
         (filter (λ u, phoneNumber u ≠ fromNumber)
                 (holding Role.SUBSCRIBER w))).

Definition forwardedText : string :=
  "Your message has been forwarded to the administrators.".

Definition broadcastDoneText : string :=
  "Your message has been broadcast to all subscribers.".

(** The confirmation that follows the fan-out [sent]: one SMS to the
    sender when the gateway accepted every send of [sent], none otherwise. *)
Definition confirmation (gw : Gateway) (w : World) (sent : list Sms)
    (sender text : string) : list Sms :=
  if forallb delivered sent
  then [mkSms sender text (gw (length (outbox w ++ sent)) sender text)]
  else [].

Definition serverError : Response :=
  mkResponse 500 [] (Send "Internal Server Error").

Definition noBody : UserBody := mkUserBody None None None.

(** A response that reports a validation error. *)
Definition validationError (r : Response) : Prop :=
  ∃ msg, r = json 400 (JsonError msg).

(** The directory after the records of [p] are gone. *)
Definition without (p : string) (m : gmap nat User) : gmap nat User :=
  filter (λ kv, phoneNumber kv.2 ≠ p) m.

(** The directory after the records of [p] have had their role set
    replaced by [rs]. *)
Definition reroled (p : string) (rs : list string) (m : gmap nat User)
  : gmap nat User :=
  (λ u, if bool_decide (phoneNumber u = p) then withRoles rs u else u) <$> m.

(** ** Directories and gateways of the examples *)

(** A gateway that accepts every send. *)
Definition accepting : nat → string → string → bool := λ _ _ _, true.

(** A gateway that rejects every send. *)
Definition rejecting : nat → string → string → bool := λ _ _ _, false.

(** The world in which [addUser] has been called for each of [us] in turn,
    starting from an empty collection. *)
Definition directory (us : list User) : World :=
  foldl (λ w u, (addUser (name u) (phoneNumber u) (roles u) w).2)
        (mkWorld ∅ 0 [] []) us.

Definition Alice : User := mkUser "Alice" "+1A" [Role.SUPERVISOR].
Definition Bob : User := mkUser "Bob" "+1B" [Role.SUBSCRIBER].
Definition Carol : User := mkUser "Carol" "+1C" [Role.STAFF].
Definition Dave : User := mkUser "Dave" "+1D" [Role.SUBSCRIBER].

(** The directory of the design document's scenario. *)
Definition scenario : World := directory [Alice; Bob; Carol].

(** A directory in which two adds went through for the number +1B: Bob's
    record comes first in store order, the record of a staff member second. *)
Definition raced : World :=
  directory [Alice; Bob; mkUser "Carol" "+1B" [Role.STAFF]; Dave].

(** The same with the two records of +1B in the other order. *)
Definition raced' : World :=
  directory [Alice; mkUser "Carol" "+1B" [Role.STAFF]; Bob; Dave].

(** A directory whose reviewer also subscribes to the broadcasts. *)
Definition subscribed_reviewer : World :=
  directory [mkUser "Alice" "+1A" [Role.SUBSCRIBER; Role.SUPERVISOR]; Bob].

(** A directory with a contact whose role set is empty. *)
Definition roleless : World :=
  directory [Alice; Bob; mkUser "Eve" "+1E" []].

(** * Properties *)

(** ** The store *)

Lemma elem_of_docs (m : gmap nat User) k u :
  (k, u) ∈ docs m ↔ m !! k = Some u.
Proof.
  unfold docs. rewrite merge_sort_Permutation.
  apply elem_of_map_to_list.
Qed.

Lemma NoDup_docs (m : gmap nat User) : NoDup (docs m).*1.
Proof.
  unfold docs. rewrite merge_sort_Permutation.
  apply NoDup_fst_map_to_list.
Qed.

Lemma elem_of_contacts w u :
  u ∈ contacts w ↔ ∃ k, users w !! k = Some u.
Proof.
  unfold contacts. rewrite list_elem_of_fmap. split.
  - intros [[k u'] [-> Hin]]. exists k. by apply elem_of_docs.
  - intros [k Hk]. exists (k, u). split; [done|]. by apply elem_of_docs.
Qed.

Lemma map_snd_filter {A B} (P : B → Prop)
    `{!∀ b, Decision (P b)} `{!∀ d : A * B, Decision (P d.2)}
    (l : list (A * B)) :
  map snd (filter (λ d, P d.2) l) = filter P (map snd l).
Proof.
  induction l as [|[a b] l IH]; [done|].
  rewrite filter_cons. simpl. rewrite filter_cons.
  destruct (H0 (a, b)), (H b); simpl in *; try done; by f_equal.
Qed.

Lemma where_phoneNumber_nil p (m : gmap nat User) :
  where_phoneNumber p m = [] ↔ ∀ k u, m !! k = Some u → phoneNumber u ≠ p.
Proof.
  unfold where_phoneNumber. split.
  - intros Hnil k u Hk Hp.
    eapply (filter_nil_not_elem_of _ _ (k, u)); [exact Hnil|done|].
    by apply elem_of_docs.
  - intros Hall. apply elem_of_nil_inv. intros [k u].
    rewrite list_elem_of_filter, elem_of_docs. intros [Hp Hk].
    by eapply Hall.
Qed.

(** ** Running the services *)

Lemma get_run q w : get q w = (Ok (q (users w)), afterRead w).
Proof. reflexivity. Qed.

Lemma getUserByPhoneNumber_run p w :
  getUserByPhoneNumber p w =
  (Ok (snd <$> head (where_phoneNumber p (users w))), afterRead w).
Proof.
  unfold getUserByPhoneNumber, mbind, M_bind, bind. rewrite get_run.
  by destruct (where_phoneNumber p (users w)).
Qed.

Lemma getUserByPhoneNumber_None p w :
  (∀ k u, users w !! k = Some u → phoneNumber u ≠ p) →
  getUserByPhoneNumber p w = (Ok None, afterRead w).
Proof.
  intros Hno. rewrite getUserByPhoneNumber_run.
  apply where_phoneNumber_nil in Hno. by rewrite Hno.
Qed.

Lemma listUsersByRole_run r w :
  listUsersByRole r w = (Ok (holding r w), afterRead w).
Proof.
  unfold listUsersByRole, mbind, M_bind, bind. rewrite get_run.
  unfold mret, M_ret, ret, holding, contacts, where_roles_contains.
  do 2 f_equal. apply (map_snd_filter (λ u, r ∈ roles u)).
Qed.

(** ** The fan-out *)

Lemma length_attempts gw n msgs : length (attempts gw n msgs) = length msgs.
Proof.
  revert n. induction msgs as [|[d t] msgs IH]; intros n; simpl; [done|].
  by rewrite IH.
Qed.

Lemma attempts_to gw n msgs : map to (attempts gw n msgs) = map fst msgs.
Proof.
  revert n. induction msgs as [|[d t] msgs IH]; intros n; simpl; [done|].
  by rewrite IH.
Qed.

Lemma attempts_body gw n msgs : map body (attempts gw n msgs) = map snd msgs.
Proof.
  revert n. induction msgs as [|[d t] msgs IH]; intros n; simpl; [done|].
  by rewrite IH.
Qed.

Lemma elem_of_attempts gw n msgs s :
  s ∈ attempts gw n msgs → (to s, body s) ∈ msgs.
Proof.
  revert n. induction msgs as [|[d t] msgs IH]; intros n; simpl.
  - by intros ?%elem_of_nil.
  - intros [->|Hin]%elem_of_cons; [by left|]. right. by eapply IH.
Qed.

Lemma attempts_elem_of gw n msgs d t :
  (d, t) ∈ msgs → ∃ s, s ∈ attempts gw n msgs ∧ to s = d ∧ body s = t.
Proof.
  revert n. induction msgs as [|[d' t'] msgs IH]; intros n; simpl.
  - by intros ?%elem_of_nil.
  - intros [[= -> ->]|Hin]%elem_of_cons.
    + eexists. split; [by left|done].
    + destruct (IH (S n) Hin) as (s & Hs & ? & ?).
      exists s. split; [by right|done].
Qed.

(** Every send of the list is made, whatever the others do; the join is
    fulfilled exactly when all of them are delivered. *)
Lemma Promise_all_map_sendSms gw {A} (dest text : A → string) (l : list A) w :
  Promise_all_map (λ a, sendSms gw (dest a) (text a)) l w =
  let sent := attempts gw (length (outbox w))
                       (map (λ a, (dest a, text a)) l) in
  (if forallb delivered sent then Ok tt else Throw GatewaySendFailure,
   mkWorld (users w) (reads w) (commits w) (outbox w ++ sent)).
Proof.
  revert w. induction l as [|a l IH]; intros w; simpl.
  - unfold ret. rewrite app_nil_r. by destruct w.
  - unfold sendSms at 1. rewrite IH. simpl.
    rewrite length_app, Nat.add_1_r, <-app_assoc. simpl.
    by destruct (gw (length (outbox w)) (dest a) (text a)).
Qed.

Lemma forwardMessageToAdmins_run gw fromNumber message w :
  forwardMessageToAdmins gw fromNumber message w =
  (if forallb delivered (escalation gw w fromNumber message)
   then Ok tt else Throw GatewaySendFailure,
   mkWorld (users w) (S (reads w)) (commits w)
           (outbox w ++ escalation gw w fromNumber message)).
Proof.
  unfold forwardMessageToAdmins, mbind, M_bind, bind.
  rewrite listUsersByRole_run.
  by rewrite (Promise_all_map_sendSms gw phoneNumber
                (λ _, "Message from " +:+ fromNumber +:+ ":" +:+ LF +:+ message)).
Qed.

Lemma broadcastMessage_run gw fromNumber message w :
  let senderName :=
    match head (where_phoneNumber fromNumber (users w)) with
    | Some doc => name doc.2
    | None => fromNumber
    end in
  broadcastMessage gw fromNumber message w =
  (if forallb delivered (broadcast gw w fromNumber senderName message)
   then Ok tt else Throw GatewaySendFailure,
   mkWorld (users w) (S (S (reads w))) (commits w)
           (outbox w ++ broadcast gw w fromNumber senderName message)).
Proof.
  unfold broadcastMessage, mbind, M_bind, bind.
  rewrite listUsersByRole_run, getUserByPhoneNumber_run. simpl.
  destruct (head (where_phoneNumber fromNumber (users w))) as [doc|]; simpl.
  - by rewrite (Promise_all_map_sendSms gw phoneNumber
       (λ _, "Broadcast from " +:+ name doc.2 +:+ ":" +:+ LF +:+ message)).
  - by rewrite (Promise_all_map_sendSms gw phoneNumber
       (λ _, "Broadcast from " +:+ fromNumber +:+ ":" +:+ LF +:+ message)).
Qed.

Lemma truthy_Some s : s ≠ "" → truthy (Some s) = Some s.
Proof. intros Hs. unfold truthy. by rewrite bool_decide_eq_false_2. Qed.

Lemma escalation_afterRead gw w fromNumber message :
  escalation gw (afterRead w) fromNumber message =
  escalation gw w fromNumber message.
Proof. reflexivity. Qed.

Lemma elem_of_holding r w u :
  u ∈ holding r w ↔ r ∈ roles u ∧ ∃ k, users w !! k = Some u.
Proof.
  unfold holding. by rewrite list_elem_of_filter, elem_of_contacts.
Qed.

(** Every holder of the escalation role is sent the escalation. *)
Lemma escalation_reaches gw w fromNumber message k u :
  users w !! k = Some u → Role.SUPERVISOR ∈ roles u →
  ∃ s, s ∈ escalation gw w fromNumber message
       ∧ to s = phoneNumber u
       ∧ body s = escalationText fromNumber message.
Proof.
  intros Hk Hr. apply attempts_elem_of.
  apply (list_elem_of_fmap_2
           (λ admin, (phoneNumber admin, escalationText fromNumber message))).
  apply elem_of_holding; eauto.
Qed.

(** An escalation goes to holders of the escalation role only. *)
Lemma escalation_only_admins gw w fromNumber message s :
  s ∈ escalation gw w fromNumber message →
  ∃ u, u ∈ holding Role.SUPERVISOR w ∧ to s = phoneNumber u
       ∧ body s = escalationText fromNumber message.
Proof.
  intros Hs%elem_of_attempts.
  apply list_elem_of_fmap in Hs as (u & [= Hto Hbody] & Hu). eauto.
Qed.

(** ** The routing engine *)

(** Step into the handler, past the check of the webhook parameters. *)
Ltac enter_handleSms :=
  unfold handleSmsFunction, handler; cbn [sms_From sms_Body];
  rewrite !truthy_Some by done;
  unfold mbind, M_bind, bind;
  rewrite getUserByPhoneNumber_run.

Lemma getUserByPhoneNumber_fst p w :
  (getUserByPhoneNumber p w).1 =
  Ok (snd <$> head (where_phoneNumber p (users w))).
Proof. by rewrite getUserByPhoneNumber_run. Qed.

Lemma includes_true l x : x ∈ l → includes l x = true.
Proof. intros. by apply bool_decide_eq_true_2. Qed.

Lemma includes_false l x : x ∉ l → includes l x = false.
Proof. intros. by apply bool_decide_eq_false_2. Qed.

(** Under the intended invariant, at most one record per phone number, the
    lookup of a contact's number resolves to that contact. *)
Lemma unique_phone_resolves w k C :
  users w !! k = Some C →
  (∀ k' u, users w !! k' = Some u → phoneNumber u = phoneNumber C → k' = k) →
  (getUserByPhoneNumber (phoneNumber C) w).1 = Ok (Some C).
Proof.
  intros Hk Huniq. rewrite getUserByPhoneNumber_fst.
  destruct (where_phoneNumber (phoneNumber C) (users w)) as [|[k' u] l]
    eqn:Hsnap.
  - exfalso. apply (not_elem_of_nil (k, C)). rewrite <-Hsnap.
    apply list_elem_of_filter. split; [done|]. by apply elem_of_docs.
  - assert ((k', u) ∈ where_phoneNumber (phoneNumber C) (users w)) as Hin
      by (rewrite Hsnap; by left).
    apply list_elem_of_filter in Hin as [Hp Hin%elem_of_docs].
    simpl in Hp. rewrite (Huniq k' u Hin Hp) in Hin. simpl. congruence.
Qed.

(** The whole run of the handler for a sender that resolves to a contact
    holding [STAFF] or the escalation role. *)
Lemma handleSms_originator_run gw w sender message C :
  sender ≠ "" → message ≠ "" →
  (getUserByPhoneNumber sender w).1 = Ok (Some C) →
  Role.STAFF ∈ roles C ∨ Role.SUPERVISOR ∈ roles C →
  handleSmsFunction gw (mkSmsRequest (Some sender) (Some message)) w =
  let sent := broadcast gw w sender (name C) message in
  let ok := gw (length (outbox w ++ sent)) sender broadcastDoneText in
  if forallb delivered sent
  then (if ok then twiml else serverError,
        mkWorld (users w) (3 + reads w) (commits w)
                (outbox w ++ sent ++ [mkSms sender broadcastDoneText ok]))
  else (serverError,
        mkWorld (users w) (3 + reads w) (commits w) (outbox w ++ sent)).
Proof.
  intros Hs Hm HC Hrole. rewrite getUserByPhoneNumber_fst in HC.
  injection HC as HC.
  enter_handleSms. rewrite HC. cbn [isNull hasRole orb negb].
  assert (includes (roles C) Role.SUBSCRIBER
          && negb (includes (roles C) Role.STAFF)
          && negb (includes (roles C) Role.SUPERVISOR) = false) as ->.
  { destruct Hrole as [H|H]; rewrite (includes_true _ _ H); simpl;
      by rewrite ?andb_false_r. }
  assert (includes (roles C) Role.STAFF
          || includes (roles C) Role.SUPERVISOR = true) as ->.
  { destruct Hrole as [H|H]; rewrite (includes_true _ _ H);
      by rewrite ?orb_true_r. }
  pose proof (broadcastMessage_run gw sender message (afterRead w)) as Hrun.
  cbn [users afterRead] in Hrun.
  destruct (head (where_phoneNumber sender (users w))) as [doc|];
    [|done]. injection HC as <-. cbv zeta in Hrun. rewrite Hrun.
  change (broadcast gw (afterRead w) sender (name doc.2) message)
    with (broadcast gw w sender (name doc.2) message).
  cbv zeta.
  destruct (forallb delivered (broadcast gw w sender (name doc.2) message));
    [|done].
  unfold sendSms. cbn [users reads commits outbox afterRead].
  rewrite <-app_assoc.
  by destruct (gw _ sender _).
Qed.

(** The whole run of the handler for a sender that resolves to a contact
    holding [SUBSCRIBER] and neither [STAFF] nor the escalation role. *)
Lemma handleSms_subscriber_run gw w sender message C :
  sender ≠ "" → message ≠ "" →
  (getUserByPhoneNumber sender w).1 = Ok (Some C) →
  Role.SUBSCRIBER ∈ roles C → Role.STAFF ∉ roles C →
  Role.SUPERVISOR ∉ roles C →
  handleSmsFunction gw (mkSmsRequest (Some sender) (Some message)) w =
  let sent := escalation gw w sender message in
  let ok := gw (length (outbox w ++ sent)) sender forwardedText in
  if forallb delivered sent
  then (if ok then twiml else serverError,
        mkWorld (users w) (2 + reads w) (commits w)
                (outbox w ++ sent ++ [mkSms sender forwardedText ok]))
  else (serverError,
        mkWorld (users w) (2 + reads w) (commits w) (outbox w ++ sent)).
Proof.
  intros Hs Hm HC Hsub Hstaff Hsup. rewrite getUserByPhoneNumber_fst in HC.
  injection HC as HC.
  enter_handleSms. rewrite HC. cbn [isNull hasRole orb negb].
  rewrite (includes_true _ _ Hsub), (includes_false _ _ Hstaff),
    (includes_false _ _ Hsup).
  cbn [andb negb]. unfold forwardMessageToSupervisor.
  rewrite forwardMessageToAdmins_run, escalation_afterRead. cbv zeta.
  destruct (forallb delivered (escalation gw w sender message)); [|done].
  unfold sendSms. cbn [users reads commits outbox afterRead].
  rewrite <-app_assoc.
  by destruct (gw _ sender _).
Qed.

(** The whole run of the handler for a sender that matches no contact. *)
Lemma handleSms_unknown_run gw w sender message :
  sender ≠ "" → message ≠ "" →
  (getUserByPhoneNumber sender w).1 = Ok None →
  handleSmsFunction gw (mkSmsRequest (Some sender) (Some message)) w =
  let sent := escalation gw w sender message in
  (if forallb delivered sent then twiml else serverError,
   mkWorld (users w) (2 + reads w) (commits w) (outbox w ++ sent)).
Proof.
  intros Hs Hm HC. rewrite getUserByPhoneNumber_fst in HC.
  injection HC as HC.
  enter_handleSms. rewrite HC. cbn [isNull hasRole orb negb].
  unfold forwardMessageToSupervisor.
  rewrite forwardMessageToAdmins_run, escalation_afterRead. cbv zeta.
  by destruct (forallb delivered (escalation gw w sender message)).
Qed.

(** The whole run of the handler for a sender that resolves to a contact
    holding none of the three roles. *)
Lemma handleSms_roleless_run gw w sender message C :
  sender ≠ "" → message ≠ "" →
  (getUserByPhoneNumber sender w).1 = Ok (Some C) →
  Role.SUBSCRIBER ∉ roles C → Role.STAFF ∉ roles C →
  Role.SUPERVISOR ∉ roles C →
  handleSmsFunction gw (mkSmsRequest (Some sender) (Some message)) w =
  (twiml, afterRead w).
Proof.
  intros Hs Hm HC Hsub Hstaff Hsup. rewrite getUserByPhoneNumber_fst in HC.
  injection HC as HC.
  enter_handleSms. rewrite HC. cbn [isNull hasRole orb negb].
  by rewrite (includes_false _ _ Hsub), (includes_false _ _ Hstaff),
    (includes_false _ _ Hsup).
Qed.

(** C1.  When the sender's phone number matches no contact of the
    directory, [handleSmsFunction] hands the gateway exactly the escalation:
    one "Message from <sender>" SMS for every contact whose role set contains
    the escalation role, and nothing else.  No SMS at all, hence no
    confirmation, goes back to the sender. *)
Theorem C1_unrecognized_sender_is_escalated
    gw (w : World) (sender message : string) :
  sender ≠ "" → message ≠ "" →
  Forall (λ u, phoneNumber u ≠ sender) (contacts w) →
  let w' := (handleSmsFunction gw
               (mkSmsRequest (Some sender) (Some message)) w).2 in
  outbox w' = outbox w ++ escalation gw w sender message
  ∧ (∀ k u, users w !! k = Some u → Role.SUPERVISOR ∈ roles u →
       ∃ s, s ∈ escalation gw w sender message
            ∧ to s = phoneNumber u
            ∧ body s = escalationText sender message)
  ∧ Forall (λ s, to s ≠ sender) (escalation gw w sender message).
Proof.
  intros Hs Hm Hno. cbv zeta.
  assert (Hnone : ∀ k u, users w !! k = Some u → phoneNumber u ≠ sender).
  { intros k u Hk. eapply (proj1 (Forall_forall _ _) Hno).
    apply elem_of_contacts; eauto. }
  split; [|split].
  - rewrite handleSms_unknown_run; [done..|].
    by rewrite getUserByPhoneNumber_None.
  - intros k u. apply escalation_reaches.
  - apply Forall_forall. intros s (u & Hu & -> & _)%escalation_only_admins.
    apply elem_of_holding in Hu as [_ [k Hk]]. eauto.
Qed.

Lemma C1_witness :
  outbox (handleSmsFunction accepting
            (mkSmsRequest (Some "+1X") (Some "spam")) scenario).2
  = [mkSms "+1A" (escalationText "+1X" "spam") true].
Proof.
  refine (proj1 (C1_unrecognized_sender_is_escalated
                   accepting scenario "+1X" "spam" _ _ _)).
  - done.
  - done.
  - apply (bool_decide_unpack _). vm_compute. exact I.
Defined.

(** C2 as stated fails: the second record of +1B is a contact of [raced] and
    holds [STAFF], yet a message from its number is escalated, and confirmed
    as forwarded, not broadcast: the lookup resolves +1B to Bob's record.
    Subscriber Dave receives nothing. *)
Lemma C2_counterexample :
  let C := mkUser "Carol" "+1B" [Role.STAFF] in
  let w' := (handleSmsFunction accepting
               (mkSmsRequest (Some (phoneNumber C)) (Some "fire drill"))
               raced).2 in
  contacts raced = [Alice; Bob; C; Dave]
  ∧ Role.STAFF ∈ roles C
  ∧ outbox w' = [mkSms "+1A" (escalationText "+1B" "fire drill") true;
                 mkSms "+1B" forwardedText true]
  ∧ outbox w' ≠
      outbox raced
      ++ broadcast accepting raced (phoneNumber C) (name C) "fire drill"
      ++ [mkSms (phoneNumber C) broadcastDoneText true].
Proof.
  cbv zeta. split; [by vm_compute|]. split; [by left|].
  split; [by vm_compute|]. by vm_compute.
Qed.

(** C2, amended.  Let C be the contact that the lookup of C's phone number
    resolves to, with [STAFF] or the escalation role in its role set.  Then
    [handleSmsFunction] with sender C.phone hands the gateway the broadcast,
    signed with C's name: one SMS for every contact whose role set contains
    [SUBSCRIBER] and whose phone number differs from C.phone, none to
    C.phone; after it, when every send of the broadcast was accepted, exactly
    one confirmation to C.phone.  With a gateway that accepts everything the
    handler answers with the empty TwiML response. *)
Theorem C2_resolved_originator_broadcasts gw (w : World) (C : User)
    (message : string) :
  phoneNumber C ≠ "" → message ≠ "" →
  (getUserByPhoneNumber (phoneNumber C) w).1 = Ok (Some C) →
  Role.STAFF ∈ roles C ∨ Role.SUPERVISOR ∈ roles C →
  let r := handleSmsFunction gw
             (mkSmsRequest (Some (phoneNumber C)) (Some message)) w in
  let sent := broadcast gw w (phoneNumber C) (name C) message in
  outbox r.2 =
    outbox w ++ sent
    ++ confirmation gw w sent (phoneNumber C) broadcastDoneText
  ∧ (∀ k u, users w !! k = Some u → Role.SUBSCRIBER ∈ roles u →
       phoneNumber u ≠ phoneNumber C →
       ∃ s, s ∈ sent ∧ to s = phoneNumber u
            ∧ body s = broadcastText (name C) message)
  ∧ Forall (λ s, to s ≠ phoneNumber C) sent
  ∧ ((∀ n d t, gw n d t = true) →
       r.1 = twiml
       ∧ outbox r.2 =
           outbox w ++ sent ++ [mkSms (phoneNumber C) broadcastDoneText true]).
Proof.
  intros Hp Hm HC Hrole r sent.
  pose proof (handleSms_originator_run gw w _ message C Hp Hm HC Hrole) as Hrun.
  cbv zeta in Hrun. fold sent in Hrun. fold r in Hrun.
  split; [|split; [|split]].
  - rewrite Hrun. unfold confirmation.
    destruct (forallb delivered sent); simpl; by rewrite ?app_nil_r.
  - intros k u Hk Hsub Hne. apply attempts_elem_of.
    apply (list_elem_of_fmap_2
             (λ subscriber,
                (phoneNumber subscriber, broadcastText (name C) message))).
    apply list_elem_of_filter. split; [done|].
    apply elem_of_holding; eauto.
  - apply Forall_forall. intros s Hs%elem_of_attempts.
    apply list_elem_of_fmap in Hs as (u & [= Hto _] & Hu).
    apply list_elem_of_filter in Hu as [Hne _]. by rewrite Hto.
  - intros Hall. rewrite Hrun.
    assert (forallb delivered sent = true) as ->.
    { apply forallb_forall. intros s Hs%list_elem_of_In.
      unfold sent, broadcast in Hs. revert Hs.
      generalize (length (outbox w)).
      induction (map _ _) as [|[d t] msgs IH]; intros n; simpl.
      - by intros ?%elem_of_nil.
      - intros [->|Hin]%elem_of_cons; [apply Hall|by eapply IH]. }
    by rewrite Hall.
Qed.

Lemma C2_witness :
  (handleSmsFunction accepting
     (mkSmsRequest (Some "+1C") (Some "fire drill")) scenario).1 = twiml
  ∧ outbox (handleSmsFunction accepting
              (mkSmsRequest (Some "+1C") (Some "fire drill")) scenario).2
    = [mkSms "+1B" (broadcastText "Carol" "fire drill") true;
       mkSms "+1C" broadcastDoneText true].
Proof.
  refine (proj2 (proj2 (proj2 (C2_resolved_originator_broadcasts
            accepting scenario Carol
            "fire drill" _ _ _ _))) _).
  - done.
  - done.
  - by vm_compute.
  - left. by left.
  - done.
Defined.

(** C3 as stated fails, for Bob, who holds [SUBSCRIBER] only, in three ways.
    (1) When the gateway rejects the escalation, Bob gets no confirmation:
        the only send is the rejected one to Alice, and the answer is 500.
    (2) When reviewer Alice also holds [SUBSCRIBER], the escalation goes to
        her, a contact whose role set contains [SUBSCRIBER].
    (3) When the lookup resolves Bob's number to the record of a staff
        member, the message is broadcast to subscriber Dave, and no reviewer
        is sent anything. *)
Lemma C3_counterexample :
  let req := mkSmsRequest (Some (phoneNumber Bob)) (Some "help") in
  roles Bob = [Role.SUBSCRIBER]
  ∧ (contacts scenario = [Alice; Bob; Carol]
     ∧ (handleSmsFunction rejecting req scenario).1 = serverError
     ∧ outbox (handleSmsFunction rejecting req scenario).2 =
         [mkSms "+1A" (escalationText "+1B" "help") false])
  ∧ (contacts subscribed_reviewer =
       [mkUser "Alice" "+1A" [Role.SUBSCRIBER; Role.SUPERVISOR]; Bob]
     ∧ outbox (handleSmsFunction accepting req subscribed_reviewer).2 =
         [mkSms "+1A" (escalationText "+1B" "help") true;
          mkSms "+1B" forwardedText true])
  ∧ (contacts raced' =
       [Alice; mkUser "Carol" "+1B" [Role.STAFF]; Bob; Dave]
     ∧ outbox (handleSmsFunction accepting req raced').2 =
         [mkSms "+1D" (broadcastText "Carol" "help") true;
          mkSms "+1B" broadcastDoneText true]).
Proof.
  cbv zeta. repeat split; by vm_compute.
Qed.

(** C3, amended.  Let C be the contact that the lookup of C's phone number
    resolves to, with [SUBSCRIBER] and neither [STAFF] nor the escalation role
    in its role set.  Then [handleSmsFunction] with sender C.phone hands the
    gateway the escalation: one SMS for every contact whose role set contains
    the escalation role, and none for a contact whose role set does not
    (a subscriber is reached only as a reviewer).  When the gateway accepted
    every send of the escalation, one confirmation that the message was
    forwarded follows, to C.phone; when it rejected one, no confirmation is
    sent and the answer is 500. *)
Theorem C3_resolved_subscriber_is_escalated gw (w : World) (C : User)
    (message : string) :
  phoneNumber C ≠ "" → message ≠ "" →
  (getUserByPhoneNumber (phoneNumber C) w).1 = Ok (Some C) →
  Role.SUBSCRIBER ∈ roles C → Role.STAFF ∉ roles C →
  Role.SUPERVISOR ∉ roles C →
  let r := handleSmsFunction gw
             (mkSmsRequest (Some (phoneNumber C)) (Some message)) w in
  let sent := escalation gw w (phoneNumber C) message in
  outbox r.2 =
    outbox w ++ sent ++ confirmation gw w sent (phoneNumber C) forwardedText
  ∧ (∀ k u, users w !! k = Some u → Role.SUPERVISOR ∈ roles u →
       ∃ s, s ∈ sent ∧ to s = phoneNumber u
            ∧ body s = escalationText (phoneNumber C) message)
  ∧ (∀ s, s ∈ sent →
       ∃ k u, users w !! k = Some u ∧ Role.SUPERVISOR ∈ roles u
              ∧ to s = phoneNumber u)
  ∧ (forallb delivered sent = true →
       outbox r.2 =
         outbox w ++ sent
         ++ [mkSms (phoneNumber C) forwardedText
               (gw (length (outbox w ++ sent)) (phoneNumber C) forwardedText)])
  ∧ (forallb delivered sent = false →
       r.1 = serverError ∧ outbox r.2 = outbox w ++ sent).
Proof.
  intros Hp Hm HC Hsub Hstaff Hsup r sent.
  pose proof (handleSms_subscriber_run gw w _ message C
                Hp Hm HC Hsub Hstaff Hsup) as Hrun.
  cbv zeta in Hrun. fold sent in Hrun. fold r in Hrun.
  split; [|split; [|split; [|split]]].
  - rewrite Hrun. unfold confirmation.
    destruct (forallb delivered sent); simpl; by rewrite ?app_nil_r.
  - intros k u. apply escalation_reaches.
  - intros s (u & Hu & Hto & _)%escalation_only_admins.
    apply elem_of_holding in Hu as [Hr [k Hk]]. eauto.
  - intros Hall. rewrite Hrun. by rewrite Hall.
  - intros Hfail. rewrite Hrun. by rewrite Hfail.
Qed.

Lemma C3_witness :
  outbox (handleSmsFunction accepting
            (mkSmsRequest (Some "+1B") (Some "help")) scenario).2
  = [mkSms "+1A" (escalationText "+1B" "help") true;
     mkSms "+1B" forwardedText true].
Proof.
  refine (proj1 (C3_resolved_subscriber_is_escalated
            accepting scenario Bob
            "help" _ _ _ _ _ _)).
  - done.
  - done.
  - by vm_compute.
  - by left.
  - by apply (bool_decide_unpack _); vm_compute.
  - by apply (bool_decide_unpack _); vm_compute.
Defined.

(** The add-user request accepts an empty [roles] array and stores a
    contact with an empty role set. *)
Lemma post_users_accepts_empty_roles :
  let r := router.post_users
             (mkUserBody (Some "Eve") (Some "+1E") (Some (JArray [])))
             (directory [Alice; Bob]) in
  r.1 = json 201 (JsonMessage "User added successfully")
  ∧ users r.2 = users roleless.
Proof. cbv zeta. split; by vm_compute. Qed.

(** C4 as stated fails: a message from Eve, a recognized contact whose role
    set is empty, is neither escalated nor broadcast.  The handler answers
    200 and sends nothing, although the escalation would have reached Alice
    and the broadcast Bob. *)
Lemma C4_counterexample :
  let req := mkSmsRequest (Some "+1E") (Some "hello") in
  contacts roleless = [Alice; Bob; mkUser "Eve" "+1E" []]
  ∧ (getUserByPhoneNumber "+1E" roleless).1
      = Ok (Some (mkUser "Eve" "+1E" []))
  ∧ handleSmsFunction accepting req roleless = (twiml, afterRead roleless)
  ∧ outbox (handleSmsFunction accepting req roleless).2 = []
  ∧ escalation accepting roleless "+1E" "hello"
      = [mkSms "+1A" (escalationText "+1E" "hello") true]
  ∧ broadcast accepting roleless "+1E" "Eve" "hello"
      = [mkSms "+1B" (broadcastText "Eve" "hello") true].
Proof.
  cbv zeta. repeat split; by vm_compute.
Qed.

(** C4, amended.  For every inbound message the handler does at most one of
    escalate and broadcast, decided by what the sender's number resolves to:
      - no contact: the escalation, and nothing else;
      - a contact with [SUBSCRIBER] and neither [STAFF] nor the escalation
        role: the escalation, then its confirmation;
      - a contact with [STAFF] or the escalation role: the broadcast, then
        its confirmation;
      - a contact with none of the three roles (an empty role set among
        them): nothing at all, and the answer is the empty TwiML response. *)
Theorem C4_routing_by_resolved_roles gw (w : World) (sender message : string) :
  sender ≠ "" → message ≠ "" →
  let r := handleSmsFunction gw
             (mkSmsRequest (Some sender) (Some message)) w in
  let esc := escalation gw w sender message in
  ∃ user, (getUserByPhoneNumber sender w).1 = Ok user ∧
    match user with
    | None => outbox r.2 = outbox w ++ esc
    | Some C =>
        let bc := broadcast gw w sender (name C) message in
        if bool_decide (Role.STAFF ∈ roles C ∨ Role.SUPERVISOR ∈ roles C)
        then outbox r.2 =
               outbox w ++ bc ++ confirmation gw w bc sender broadcastDoneText
        else if bool_decide (Role.SUBSCRIBER ∈ roles C)
        then outbox r.2 =
               outbox w ++ esc ++ confirmation gw w esc sender forwardedText
        else r = (twiml, afterRead w) ∧ outbox r.2 = outbox w
    end.
Proof.
  intros Hs Hm r esc.
  destruct (getUserByPhoneNumber sender w).1 as [user|] eqn:Huser;
    [|by rewrite getUserByPhoneNumber_fst in Huser].
  exists user. split; [done|]. destruct user as [C|].
  - cbv zeta. repeat case_bool_decide.
    + pose proof (handleSms_originator_run gw w _ message C Hs Hm Huser)
        as Hrun.
      unfold r. rewrite Hrun by done. cbv zeta. unfold confirmation.
      destruct (forallb delivered _); simpl; by rewrite ?app_nil_r.
    + pose proof (handleSms_subscriber_run gw w _ message C Hs Hm Huser)
        as Hrun.
      unfold r. rewrite Hrun by tauto. cbv zeta. unfold confirmation.
      fold esc. destruct (forallb delivered esc); simpl;
        by rewrite ?app_nil_r.
    + pose proof (handleSms_roleless_run gw w _ message C Hs Hm Huser)
        as Hrun.
      unfold r. by rewrite Hrun by tauto.
  - pose proof (handleSms_unknown_run gw w _ message Hs Hm Huser) as Hrun.
    unfold r. by rewrite Hrun.
Qed.

Lemma C4_witness :
  ∃ user, (getUserByPhoneNumber "+1X" scenario).1 = Ok user ∧
    match user with
    | None =>
        outbox (handleSmsFunction accepting
                  (mkSmsRequest (Some "+1X") (Some "spam")) scenario).2
        = outbox scenario ++ escalation accepting scenario "+1X" "spam"
    | Some C =>
        let bc := broadcast accepting scenario "+1X" (name C) "spam" in
        let esc := escalation accepting scenario "+1X" "spam" in
        let r := handleSmsFunction accepting
                   (mkSmsRequest (Some "+1X") (Some "spam")) scenario in
        if bool_decide (Role.STAFF ∈ roles C ∨ Role.SUPERVISOR ∈ roles C)
        then outbox r.2 =
               outbox scenario ++ bc
               ++ confirmation accepting scenario bc "+1X" broadcastDoneText
        else if bool_decide (Role.SUBSCRIBER ∈ roles C)
        then outbox r.2 =
               outbox scenario ++ esc
               ++ confirmation accepting scenario esc "+1X" forwardedText
        else r = (twiml, afterRead scenario) ∧ outbox r.2 = outbox scenario
    end.
Proof.
  apply (C4_routing_by_resolved_roles accepting scenario "+1X" "spam").
  - done.
  - done.
Defined.

(** ** The fan-out dispatcher *)

Lemma forallb_delivered_false (sent : list Sms) :
  Exists (λ s, delivered s = false) sent → forallb delivered sent = false.
Proof.
  induction 1 as [s l Hs|s l _ IH]; simpl.
  - by rewrite Hs.
  - rewrite IH. apply andb_false_r.
Qed.

(** C5.  Both fan-outs of services/twilio.ts, for every directory (hence
    every recipient list) and every gateway: when at least one of the sends
    is rejected, the function as a whole is rejected; the gateway has been
    handed exactly one SMS per recipient of the list, in list order, and
    nothing more (no retry); and every send that was accepted stays in the
    outbox as delivered, after the ones that were there before. *)
Theorem C5_fanout_fails_as_a_whole gw (w : World) (fromNumber message : string) :
  let admins := holding Role.SUPERVISOR w in
  let esc := escalation gw w fromNumber message in
  let r1 := forwardMessageToAdmins gw fromNumber message w in
  let subscribers :=
    filter (λ u, phoneNumber u ≠ fromNumber) (holding Role.SUBSCRIBER w) in
  let senderName :=
    match (getUserByPhoneNumber fromNumber w).1 with
    | Ok (Some sender) => name sender
    | _ => fromNumber
    end in
  let bc := broadcast gw w fromNumber senderName message in
  let r2 := broadcastMessage gw fromNumber message w in
  (Exists (λ s, delivered s = false) esc →
     r1.1 = Throw GatewaySendFailure
     ∧ outbox r1.2 = outbox w ++ esc
     ∧ map to esc = map phoneNumber admins
     ∧ length esc = length admins
     ∧ (∀ s, s ∈ esc → delivered s = true → s ∈ outbox r1.2))
  ∧ (Exists (λ s, delivered s = false) bc →
     r2.1 = Throw GatewaySendFailure
     ∧ outbox r2.2 = outbox w ++ bc
     ∧ map to bc = map phoneNumber subscribers
     ∧ length bc = length subscribers
     ∧ (∀ s, s ∈ bc → delivered s = true → s ∈ outbox r2.2)).
Proof.
  cbv zeta. split.
  - intros Hfail%forallb_delivered_false.
    rewrite forwardMessageToAdmins_run, Hfail. cbn [fst snd outbox].
    split; [done|]. split; [done|].
    unfold escalation. rewrite attempts_to, length_attempts, length_map.
    split; [by rewrite <-list_fmap_compose|]. split; [done|].
    intros s Hs _. apply elem_of_app. by right.
  - pose proof (broadcastMessage_run gw fromNumber message w) as Hrun.
    cbv zeta in Hrun. rewrite getUserByPhoneNumber_fst.
    destruct (head (where_phoneNumber fromNumber (users w))) as [doc|];
      cbn [fmap option_fmap option_map];
      intros Hfail%forallb_delivered_false;
      rewrite Hrun, Hfail; cbn [fst snd outbox];
      (split; [done|]); (split; [done|]);
      unfold broadcast; rewrite attempts_to, length_attempts, length_map;
      (split; [by rewrite <-list_fmap_compose|]); (split; [done|]);
      intros s Hs _; apply elem_of_app; by right.
Qed.

Lemma C5_witness :
  (forwardMessageToAdmins rejecting "+1B" "help" scenario).1
    = Throw GatewaySendFailure
  ∧ (broadcastMessage rejecting "+1C" "fire drill" scenario).1
    = Throw GatewaySendFailure.
Proof.
  destruct (C5_fanout_fails_as_a_whole rejecting scenario "+1B" "help")
    as [H1 _].
  destruct (C5_fanout_fails_as_a_whole rejecting scenario "+1C" "fire drill")
    as [_ H2].
  split.
  - apply H1. apply (bool_decide_unpack _). by vm_compute.
  - apply H2. apply (bool_decide_unpack _). by vm_compute.
Defined.

(** ** The contact directory *)

Lemma elem_of_where_phoneNumber p (m : gmap nat User) k :
  k ∈ (where_phoneNumber p m).*1 ↔
  ∃ u, m !! k = Some u ∧ phoneNumber u = p.
Proof.
  unfold where_phoneNumber. rewrite list_elem_of_fmap. split.
  - intros [[k' u] [-> [Hp Hin]%list_elem_of_filter]].
    exists u. split; [by apply elem_of_docs|done].
  - intros (u & Hk & Hp). exists (k, u). split; [done|].
    apply list_elem_of_filter. split; [done|]. by apply elem_of_docs.
Qed.

Lemma lookup_foldl_delete (l : list (nat * User)) (m : gmap nat User) k :
  foldl apply_op m (map (λ doc, BatchDelete doc.1) l) !! k =
  if decide (k ∈ l.*1) then None else m !! k.
Proof.
  revert m. induction l as [|d l IH]; intros m; csimpl; [done|].
  rewrite IH, lookup_delete.
  destruct (decide (k ∈ l.*1)), (decide (d.1 = k)),
    (decide (k ∈ d.1 :: l.*1)) as [Hin|Hout];
    rewrite ?elem_of_cons in *; try done; intuition congruence.
Qed.

Lemma lookup_foldl_update rs (l : list (nat * User)) (m : gmap nat User) k :
  foldl apply_op m (map (λ doc, BatchUpdateRoles doc.1 rs) l) !! k =
  if decide (k ∈ l.*1) then withRoles rs <$> m !! k else m !! k.
Proof.
  revert m. induction l as [|d l IH]; intros m; csimpl; [done|].
  rewrite IH, lookup_alter.
  destruct (decide (k ∈ l.*1)), (decide (d.1 = k)),
    (decide (k ∈ d.1 :: l.*1)) as [Hin|Hout];
    rewrite ?elem_of_cons in *; subst; try done; try (intuition congruence).
  by destruct (m !! d.1).
Qed.

Lemma forallb_op_ok_delete (l : list (nat * User)) (m : gmap nat User) :
  forallb (op_ok m) (map (λ doc, BatchDelete doc.1) l) = true.
Proof. by induction l. Qed.

Lemma forallb_op_ok_update rs p (m : gmap nat User) :
  forallb (op_ok m)
    (map (λ doc, BatchUpdateRoles doc.1 rs) (where_phoneNumber p m)) = true.
Proof.
  apply forallb_forall. intros op Hop%list_elem_of_In.
  apply list_elem_of_fmap in Hop as ([k u] & -> & Hin). simpl.
  apply bool_decide_eq_true_2. exists u.
  apply list_elem_of_filter in Hin as [_ Hin]. by apply elem_of_docs.
Qed.

Lemma removeUser_run p w :
  removeUser p w =
  (Ok tt,
   mkWorld (without p (users w)) (S (reads w))
           (commits w
            ++ [map (λ doc, BatchDelete doc.1) (where_phoneNumber p (users w))])
           (outbox w)).
Proof.
  unfold removeUser, mbind, M_bind, bind. rewrite get_run.
  unfold commit. cbn [users reads commits outbox afterRead].
  rewrite forallb_op_ok_delete. do 2 f_equal.
  apply map_eq. intros k. rewrite lookup_foldl_delete.
  unfold without. rewrite map_lookup_filter.
  case_decide as Hk.
  - apply elem_of_where_phoneNumber in Hk as (u & -> & Hp). simpl.
    by rewrite option_guard_False by (simpl; auto).
  - destruct (users w !! k) as [u|] eqn:Hu; simpl; [|done].
    rewrite option_guard_True; [done|]. simpl. intros Hp.
    apply Hk, elem_of_where_phoneNumber. eauto.
Qed.

Lemma updateUserRoles_found p rs w :
  where_phoneNumber p (users w) ≠ [] →
  updateUserRoles p rs w =
  (Ok tt,
   mkWorld (reroled p rs (users w)) (S (reads w))
           (commits w
            ++ [map (λ doc, BatchUpdateRoles doc.1 rs)
                    (where_phoneNumber p (users w))])
           (outbox w)).
Proof.
  intros Hne. unfold updateUserRoles, mbind, M_bind, bind. rewrite get_run.
  destruct (where_phoneNumber p (users w)) as [|d l] eqn:Hsnap; [done|].
  rewrite <-Hsnap. unfold commit. cbn [users reads commits outbox afterRead].
  rewrite forallb_op_ok_update. do 2 f_equal.
  apply map_eq. intros k. rewrite lookup_foldl_update.
  unfold reroled. rewrite lookup_fmap.
  case_decide as Hk.
  - apply elem_of_where_phoneNumber in Hk as (u & -> & Hp). simpl.
    by rewrite bool_decide_eq_true_2.
  - destruct (users w !! k) as [u|] eqn:Hu; simpl; [|done].
    rewrite bool_decide_eq_false_2; [done|]. intros Hp.
    apply Hk, elem_of_where_phoneNumber. eauto.
Qed.

Lemma updateUserRoles_absent p rs w :
  where_phoneNumber p (users w) = [] →
  updateUserRoles p rs w =
  (Throw (JsError ("No user found with phone number " +:+ p)), afterRead w).
Proof.
  intros Hnil. unfold updateUserRoles, mbind, M_bind, bind.
  by rewrite get_run, Hnil.
Qed.

Lemma where_phoneNumber_Forall p w :
  Forall (λ u, phoneNumber u ≠ p) (contacts w) ↔
  where_phoneNumber p (users w) = [].
Proof.
  rewrite where_phoneNumber_nil, Forall_forall. split.
  - intros H k u Hk. apply H, elem_of_contacts. eauto.
  - intros H u [k Hk]%elem_of_contacts. eauto.
Qed.

Lemma where_phoneNumber_Exists p w :
  Exists (λ u, phoneNumber u = p) (contacts w) ↔
  where_phoneNumber p (users w) ≠ [].
Proof.
  rewrite <-where_phoneNumber_Forall. split.
  - intros Hex Hall. by apply Forall_Exists_neg in Hall.
  - intros Hne. apply dec_stable. intros Hnex.
    apply Hne. by apply Forall_Exists_neg.
Qed.

(** C6.  [updateUserRoles phone rs], for every directory.  When no stored
    record matches [phone] it is rejected with the "No user found" error (the
    one the handlers report as 404) and neither the collection nor the list
    of committed batches changes.  When at least one record matches it
    succeeds; every record of [phone] has its role set replaced by [rs] and
    keeps its other fields, every other record is as before, no record
    appears or disappears; and all of this is one committed batch, holding
    one update per matching record. *)
Theorem C6_updateUserRoles_all_matches_or_not_found
    (w : World) (phone : string) (rs : list string) :
  let r := updateUserRoles phone rs w in
  (Forall (λ u, phoneNumber u ≠ phone) (contacts w) →
     r.1 = Throw (JsError ("No user found with phone number " +:+ phone))
     ∧ (∃ e, r.1 = Throw e ∧ isNoUserFound e = true)
     ∧ users r.2 = users w
     ∧ commits r.2 = commits w)
  ∧ (Exists (λ u, phoneNumber u = phone) (contacts w) →
     r.1 = Ok tt
     ∧ (∀ k, users r.2 !! k =
             (λ u, if bool_decide (phoneNumber u = phone)
                   then mkUser (name u) (phoneNumber u) rs else u)
             <$> users w !! k)
     ∧ commits r.2 =
         commits w ++ [map (λ doc, BatchUpdateRoles doc.1 rs)
                           (where_phoneNumber phone (users w))]
     ∧ ∀ k, k ∈ (where_phoneNumber phone (users w)).*1 ↔
            ∃ u, users w !! k = Some u ∧ phoneNumber u = phone).
Proof.
  cbv zeta. split.
  - intros Hnil%where_phoneNumber_Forall.
    rewrite updateUserRoles_absent by done. cbn [fst snd afterRead users commits].
    split; [done|]. split; [|done]. eexists. split; [done|].
    by apply bool_decide_eq_true_2.
  - intros Hne%where_phoneNumber_Exists.
    rewrite updateUserRoles_found by done. cbn [fst snd users commits].
    split; [done|]. split; [|split; [done|]].
    + intros k. unfold reroled. by rewrite lookup_fmap.
    + intros k. apply elem_of_where_phoneNumber.
Qed.

Lemma C6_witness :
  (updateUserRoles "+1X" [Role.STAFF] scenario).1
    = Throw (JsError "No user found with phone number +1X")
  ∧ users (updateUserRoles "+1B" [Role.SUPERVISOR] raced).2 !! 1
    = Some (mkUser "Bob" "+1B" [Role.SUPERVISOR])
  ∧ users (updateUserRoles "+1B" [Role.SUPERVISOR] raced).2 !! 2
    = Some (mkUser "Carol" "+1B" [Role.SUPERVISOR]).
Proof.
  destruct (C6_updateUserRoles_all_matches_or_not_found
              scenario "+1X" [Role.STAFF]) as [Habsent _].
  destruct (C6_updateUserRoles_all_matches_or_not_found
              raced "+1B" [Role.SUPERVISOR]) as [_ Hfound].
  split; [|split].
  - apply Habsent. apply (bool_decide_unpack _). by vm_compute.
  - destruct Hfound as (_ & Hk & _).
    + apply (bool_decide_unpack _). by vm_compute.
    + by rewrite Hk.
  - destruct Hfound as (_ & Hk & _).
    + apply (bool_decide_unpack _). by vm_compute.
    + by rewrite Hk.
Defined.

(** ** The delete handlers *)

Lemma deleteUserSteps_absent phone w :
  Forall (λ u, phoneNumber u ≠ phone) (contacts w) →
  deleteUserSteps phone w = (Ok userNotFound, afterRead w).
Proof.
  intros Hnil%where_phoneNumber_Forall.
  unfold deleteUserSteps, mbind, M_bind, bind.
  by rewrite getUserByPhoneNumber_run, Hnil.
Qed.

Lemma deleteUserSteps_found phone w :
  Exists (λ u, phoneNumber u = phone) (contacts w) →
  deleteUserSteps phone w =
  (Ok (json 200 (JsonMessage "User removed successfully")),
   (removeUser phone (afterRead w)).2).
Proof.
  intros Hne%where_phoneNumber_Exists.
  unfold deleteUserSteps, mbind, M_bind, bind.
  rewrite getUserByPhoneNumber_run.
  destruct (where_phoneNumber phone (users w)) as [|d l]; [done|]. simpl.
  by rewrite removeUser_run.
Qed.

(** C7 as stated fails: in the scenario directory nobody has the number
    +1X, and both delete handlers answer a delete of +1X with 404
    "User not found", not with success. *)
Lemma C7_counterexample :
  Forall (λ u, phoneNumber u ≠ "+1X") (contacts scenario)
  ∧ deleteUserFunction (mkRequest "DELETE" "/deleteUser/+1X" noBody) scenario
    = (mkResponse 404 [] (JsonError "User not found"), afterRead scenario)
  ∧ router.delete_user "+1X" scenario
    = (mkResponse 404 [] (JsonError "User not found"), afterRead scenario).
Proof.
  split; [|split].
  - apply (bool_decide_unpack _). by vm_compute.
  - by vm_compute.
  - by vm_compute.
Qed.

(** C7, amended.  The delete handlers check that the contact exists.  For a
    phone number that matches no contact they answer 404 "User not found" and
    leave the collection and the committed batches as they were.  They answer
    200 "User removed successfully" exactly when some record matched, and
    then every record of that number is gone; so a second, identical delete
    request is answered 404. *)
Theorem C7_delete_of_absent_contact_is_404 (w : World) (phone : string) :
  phone ≠ "" →
  (Forall (λ u, phoneNumber u ≠ phone) (contacts w) →
     (∀ req, method req = "DELETE" → lastSegment (path req) = phone →
        deleteUserFunction req w = (userNotFound, afterRead w))
     ∧ router.delete_user phone w = (userNotFound, afterRead w))
  ∧ (Exists (λ u, phoneNumber u = phone) (contacts w) →
     let r := router.delete_user phone w in
     r.1 = json 200 (JsonMessage "User removed successfully")
     ∧ users r.2 = without phone (users w)
     ∧ (router.delete_user phone r.2).1 = userNotFound
     ∧ ∀ req, method req = "DELETE" → lastSegment (path req) = phone →
         deleteUserFunction req w = r).
Proof.
  intros Hp. split.
  - intros Habs. split.
    + intros req Hm Hseg. unfold deleteUserFunction, handler.
      rewrite Hm, Hseg, truthy_Some by done. simpl.
      by rewrite deleteUserSteps_absent.
    + unfold router.delete_user, handler. rewrite truthy_Some by done.
      by rewrite deleteUserSteps_absent.
  - intros Hex. cbv zeta.
    assert (router.delete_user phone w =
            (json 200 (JsonMessage "User removed successfully"),
             (removeUser phone (afterRead w)).2)) as Hrun.
    { unfold router.delete_user, handler. rewrite truthy_Some by done.
      by rewrite deleteUserSteps_found. }
    rewrite Hrun. cbn [fst snd]. rewrite removeUser_run. cbn [fst snd users].
    split; [done|]. split; [done|]. split.
    + unfold router.delete_user, handler. rewrite truthy_Some by done.
      rewrite deleteUserSteps_absent; [done|].
      apply Forall_forall. intros u [k Hk]%elem_of_contacts.
      cbn [users] in Hk. unfold without in Hk.
      by apply map_lookup_filter_Some in Hk as [_ Hk].
    + intros req Hm Hseg. unfold deleteUserFunction, handler.
      rewrite Hm, Hseg, truthy_Some by done. simpl.
      rewrite deleteUserSteps_found by done. by rewrite removeUser_run.
Qed.

Lemma C7_witness :
  router.delete_user "+1X" scenario = (userNotFound, afterRead scenario)
  ∧ (router.delete_user "+1B" scenario).1
    = json 200 (JsonMessage "User removed successfully").
Proof.
  destruct (C7_delete_of_absent_contact_is_404 scenario "+1X") as [Habs _];
    [done|].
  destruct (C7_delete_of_absent_contact_is_404 scenario "+1B") as [_ Hfound];
    [done|].
  split.
  - apply Habs. apply (bool_decide_unpack _). by vm_compute.
  - apply Hfound. apply (bool_decide_unpack _). by vm_compute.
Defined.

Lemma without_id p (m : gmap nat User) :
  (∀ k u, m !! k = Some u → phoneNumber u ≠ p) → without p m = m.
Proof.
  intros Hno. unfold without. apply map_filter_id.
  intros k u Hk. simpl. by eapply Hno.
Qed.

Lemma without_without p (m : gmap nat User) :
  without p (without p m) = without p m.
Proof.
  apply without_id. intros k u Hk. unfold without in Hk.
  by apply map_lookup_filter_Some in Hk as [_ Hk].
Qed.

(** C8.  [removeUser phone], for every directory.  It always succeeds.  The
    records whose phone number is [phone] are gone, all other records are as
    before, and this is one committed batch holding one delete per matching
    record.  When no record matches, the collection is unchanged (the batch
    is empty).  Removing the same number a second time succeeds as well and
    leaves the collection as the first removal left it. *)
Theorem C8_removeUser_all_matches_idempotent (w : World) (phone : string) :
  let r := removeUser phone w in
  r.1 = Ok tt
  ∧ (∀ k, users r.2 !! k =
          match users w !! k with
          | Some u => if bool_decide (phoneNumber u = phone)
                      then None else Some u
          | None => None
          end)
  ∧ commits r.2 =
      commits w ++ [map (λ doc, BatchDelete doc.1)
                        (where_phoneNumber phone (users w))]
  ∧ (∀ k, k ∈ (where_phoneNumber phone (users w)).*1 ↔
          ∃ u, users w !! k = Some u ∧ phoneNumber u = phone)
  ∧ outbox r.2 = outbox w
  ∧ (Forall (λ u, phoneNumber u ≠ phone) (contacts w) →
       users r.2 = users w
       ∧ commits r.2 = commits w ++ [[]])
  ∧ (removeUser phone r.2).1 = Ok tt
  ∧ users (removeUser phone r.2).2 = users r.2.
Proof.
  cbv zeta. rewrite !removeUser_run. cbn [fst snd users commits outbox].
  split; [done|]. split; [|split; [done|split; [|split; [done|split]]]].
  - intros k. unfold without. rewrite map_lookup_filter.
    destruct (users w !! k) as [u|]; simpl; [|done].
    case_bool_decide.
    + by rewrite option_guard_False by (simpl; auto).
    + by rewrite option_guard_True.
  - intros k. apply elem_of_where_phoneNumber.
  - intros Hall. pose proof Hall as Hnil%where_phoneNumber_Forall.
    rewrite Hnil. split; [|done].
    apply without_id. by apply where_phoneNumber_nil.
  - split; [done|]. apply without_without.
Qed.

Lemma C8_witness :
  users (removeUser "+1X" scenario).2 = users scenario
  ∧ commits (removeUser "+1X" scenario).2 = [[]].
Proof.
  apply (C8_removeUser_all_matches_idempotent scenario "+1X").
  apply (bool_decide_unpack _). by vm_compute.
Defined.

(** ** Validation of role tokens *)

Lemma isRole_spec (role : Json) :
  isRole role = true ↔ role ∈ JString <$> Role.values.
Proof.
  unfold isRole, includes. split.
  - destruct role; try done. intros Hs%bool_decide_eq_true.
    by apply list_elem_of_fmap_2.
  - intros (s & -> & Hs)%list_elem_of_fmap.
    by apply bool_decide_eq_true_2.
Qed.

Lemma firstInvalidRole_Some (rs : list Json) :
  Exists (λ role, role ∉ JString <$> Role.values) rs →
  ∃ role, firstInvalidRole rs = Some role
          ∧ role ∈ rs ∧ role ∉ JString <$> Role.values.
Proof.
  unfold firstInvalidRole.
  induction 1 as [role rs Hrole|role rs _ IH]; simpl.
  - destruct (isRole role) eqn:His; [by apply isRole_spec in His|].
    exists role. split; [done|]. split; [by left|done].
  - destruct (isRole role) eqn:His; simpl.
    + destruct IH as (bad & ? & ? & ?). exists bad.
      split; [done|]. split; [by right|done].
    + exists role. split; [done|]. split; [by left|].
      intros Hin%isRole_spec. congruence.
Qed.

Lemma addUserSteps_invalid b rs w :
  body_roles b = Some (JArray rs) →
  Exists (λ role, role ∉ JString <$> Role.values) rs →
  ∃ r, addUserSteps b w = (Ok r, w) ∧ validationError r.
Proof.
  intros Hb (bad & Hbad & _)%firstInvalidRole_Some.
  unfold addUserSteps. rewrite Hb, Hbad.
  destruct (truthy (body_name b)), (truthy (body_phoneNumber b));
    (eexists; split; [reflexivity|by eexists]).
Qed.

Lemma updateUserSteps_invalid phone b rs w :
  body_roles b = Some (JArray rs) →
  Exists (λ role, role ∉ JString <$> Role.values) rs →
  ∃ r, updateUserSteps phone b w = (Ok r, w) ∧ validationError r.
Proof.
  intros Hb (bad & Hbad & _)%firstInvalidRole_Some.
  unfold updateUserSteps. rewrite Hb, Hbad.
  eexists; split; [reflexivity|by eexists].
Qed.

(** C9.  A request to add a user or to replace a user's roles whose [roles]
    array holds a token that is not a value of the [Role] enumeration is
    answered 400 with an error message, by the cloud functions and by the
    router alike, and the world is untouched: no query has been made, no
    record inserted, no batch committed, no role set changed. *)
Theorem C9_invalid_role_rejected_before_the_store
    (w : World) (b : UserBody) (tokens : list Json) :
  body_roles b = Some (JArray tokens) →
  Exists (λ role, role ∉ JString <$> Role.values) tokens →
  (∀ req, method req = "POST" → reqBody req = b →
     validationError (addUserFunction req w).1
     ∧ (addUserFunction req w).2 = w)
  ∧ (validationError (router.post_users b w).1
     ∧ (router.post_users b w).2 = w)
  ∧ (∀ req, method req = "PUT" → reqBody req = b →
     validationError (updateUserFunction req w).1
     ∧ (updateUserFunction req w).2 = w)
  ∧ (∀ phone, validationError (router.put_user phone b w).1
              ∧ (router.put_user phone b w).2 = w).
Proof.
  intros Hb Hbad.
  pose proof (addUserSteps_invalid b tokens w Hb Hbad) as (ra & Hadd & Hra).
  split; [|split; [|split]].
  - intros req Hm <-. unfold addUserFunction, handler.
    rewrite Hm, bool_decide_eq_true_2 by done. cbn [negb].
    by rewrite Hadd.
  - unfold router.post_users, handler. by rewrite Hadd.
  - intros req Hm <-. unfold updateUserFunction, handler.
    rewrite Hm, bool_decide_eq_true_2 by done. cbn [negb].
    destruct (truthy (Some (lastSegment (path req)))) as [phone|].
    + pose proof (updateUserSteps_invalid phone _ tokens w Hb Hbad)
        as (ru & Hupd & Hru).
      by rewrite Hupd.
    + split; [by eexists|done].
  - intros phone. unfold router.put_user, handler.
    destruct (truthy (Some phone)) as [phone'|].
    + pose proof (updateUserSteps_invalid phone' _ tokens w Hb Hbad)
        as (ru & Hupd & Hru).
      by rewrite Hupd.
    + split; [by eexists|done].
Qed.

Lemma C9_witness :
  (router.post_users
     (mkUserBody (Some "Dan") (Some "+1D")
                 (Some (JArray [JString "STAFF"; JString "MANAGER"])))
     scenario).2 = scenario
  ∧ (router.put_user "+1B"
       (mkUserBody None None (Some (JArray [JString "OWNER"])))
       scenario).2 = scenario.
Proof.
  split.
  - refine (proj2 (proj1 (proj2
      (C9_invalid_role_rejected_before_the_store scenario
         (mkUserBody (Some "Dan") (Some "+1D")
            (Some (JArray [JString "STAFF"; JString "MANAGER"])))
         [JString "STAFF"; JString "MANAGER"] _ _)))).
    + reflexivity.
    + apply Exists_cons_tl, Exists_cons_hd.
      intros (s & [= <-] & Hs)%list_elem_of_fmap. revert Hs.
      apply (bool_decide_unpack _). by vm_compute.
  - refine (proj2 (proj2 (proj2 (proj2
      (C9_invalid_role_rejected_before_the_store scenario
         (mkUserBody None None (Some (JArray [JString "OWNER"])))
         [JString "OWNER"] _ _))) "+1B")).
    + reflexivity.
    + apply Exists_cons_hd.
      intros (s & [= <-] & Hs)%list_elem_of_fmap. revert Hs.
      apply (bool_decide_unpack _). by vm_compute.
Defined.

(** ** The text that is delivered *)

Lemma length_append (a b : string) :
  String.length (a +:+ b) = String.length a + String.length b.
Proof. induction a as [|c a IH]; simpl; [done|]. by rewrite IH. Qed.

Lemma broadcastText_neq senderName message :
  broadcastText senderName message ≠ message.
Proof.
  intros Heq%(f_equal String.length). unfold broadcastText in Heq.
  rewrite !length_append in Heq. simpl in Heq. lia.
Qed.

Lemma escalationText_neq fromNumber message :
  escalationText fromNumber message ≠ message.
Proof.
  intros Heq%(f_equal String.length). unfold escalationText in Heq.
  rewrite !length_append in Heq. simpl in Heq. lia.
Qed.

Lemma attempts_Forall_body gw n (msgs : list (string * string)) (P : string → Prop) :
  Forall (λ m, P m.2) msgs → Forall (λ s, P (body s)) (attempts gw n msgs).
Proof.
  intros Hall. revert n.
  induction Hall as [|[d t] msgs Ht _ IH]; intros n; simpl; by constructor.
Qed.

(** C10.  What the two fan-outs hand to the gateway is never the inbound
    body itself.  [broadcastMessage] sends, to each subscriber other than the
    sender, "Broadcast from <senderName>:", a line feed and the message,
    where <senderName> is the name of the contact the sender's number
    resolves to, and the number itself when it resolves to none.
    [forwardMessageToAdmins] sends, to each holder of the escalation role,
    "Message from <fromNumber>:", a line feed and the message. *)
Theorem C10_delivered_text_wraps_the_message
    gw (w : World) (fromNumber message : string) :
  let senderName :=
    match (getUserByPhoneNumber fromNumber w).1 with
    | Ok (Some sender) => name sender
    | _ => fromNumber
    end in
  let rb := broadcastMessage gw fromNumber message w in
  let rf := forwardMessageToAdmins gw fromNumber message w in
  (∃ sent,
     outbox rb.2 = outbox w ++ sent
     ∧ map to sent =
         map phoneNumber (filter (λ u, phoneNumber u ≠ fromNumber)
                                 (holding Role.SUBSCRIBER w))
     ∧ Forall (λ s, body s =
                    "Broadcast from " +:+ senderName +:+ ":" +:+ LF +:+ message
                    ∧ body s ≠ message) sent)
  ∧ (∃ sent,
     outbox rf.2 = outbox w ++ sent
     ∧ map to sent = map phoneNumber (holding Role.SUPERVISOR w)
     ∧ Forall (λ s, body s =
                    "Message from " +:+ fromNumber +:+ ":" +:+ LF +:+ message
                    ∧ body s ≠ message) sent).
Proof.
  cbv zeta. split.
  - pose proof (broadcastMessage_run gw fromNumber message w) as Hrun.
    cbv zeta in Hrun. rewrite Hrun, getUserByPhoneNumber_fst.
    cbn [fst snd outbox].
    set (senderName := match head (where_phoneNumber fromNumber (users w)) with
                       | Some doc => name doc.2
                       | None => fromNumber
                       end).
    assert (match snd <$> head (where_phoneNumber fromNumber (users w)) with
            | Some sender => name sender
            | None => fromNumber
            end = senderName) as ->.
    { unfold senderName.
      by destruct (head (where_phoneNumber fromNumber (users w))). }
    exists (broadcast gw w fromNumber senderName message).
    split; [done|]. unfold broadcast. split.
    + by rewrite attempts_to, <-list_fmap_compose.
    + apply (attempts_Forall_body gw _ _
               (λ t, t = broadcastText senderName message ∧ t ≠ message)).
      apply Forall_forall. intros m (u & -> & _)%list_elem_of_fmap. simpl.
      split; [done|]. apply broadcastText_neq.
  - rewrite forwardMessageToAdmins_run. cbn [fst snd outbox].
    exists (escalation gw w fromNumber message).
    split; [done|]. unfold escalation. split.
    + by rewrite attempts_to, <-list_fmap_compose.
    + apply (attempts_Forall_body gw _ _
               (λ t, t = escalationText fromNumber message ∧ t ≠ message)).
      apply Forall_forall. intros m (u & -> & _)%list_elem_of_fmap. simpl.
      split; [done|]. apply escalationText_neq.
Qed.


(** * Further properties of the directory and the handlers *)

(** ** The order of the documents *)

#[global] Instance doc_le_trans : Transitive doc_le.
Proof. intros a b c. unfold doc_le. lia. Qed.

#[global] Instance doc_le_total : Total doc_le.
Proof. intros a b. unfold doc_le. lia. Qed.

Lemma StronglySorted_docs (m : gmap nat User) : StronglySorted doc_le (docs m).
Proof. apply StronglySorted_merge_sort; apply _. Qed.

Lemma StronglySorted_filter {A} (R : relation A) (P : A → Prop)
    `{!∀ x, Decision (P x)} (l : list A) :
  StronglySorted R l → StronglySorted R (filter P l).
Proof.
  induction 1 as [|x l Hl IH Hx]; [constructor|].
  rewrite filter_cons. destruct (decide (P x)); [|done].
  constructor; [done|].
  apply Forall_forall. intros y [_ Hy]%list_elem_of_filter.
  by eapply (proj1 (Forall_forall _ _) Hx).
Qed.

Lemma NoDup_fst_functional {A B} (l : list (A * B)) k u1 u2 :
  NoDup l.*1 → (k, u1) ∈ l → (k, u2) ∈ l → u1 = u2.
Proof.
  induction l as [|[k' u'] l IH]; csimpl.
  - by intros _ ?%elem_of_nil.
  - intros [Hk' Hl]%NoDup_cons [[= -> ->]|H1]%elem_of_cons
      [[= ->]|H2]%elem_of_cons; try done.
    + exfalso. apply Hk'. by apply (list_elem_of_fmap_2 fst _ (k', u2)).
    + exfalso. apply Hk'. by apply (list_elem_of_fmap_2 fst _ (k', u1)).
    + eauto.
Qed.

(** Two listings in document order with the same entries are the same. *)
Lemma sorted_docs_unique (l1 l2 : list (nat * User)) :
  StronglySorted doc_le l1 → StronglySorted doc_le l2 →
  NoDup l1.*1 → NoDup l2.*1 → (∀ x, x ∈ l1 ↔ x ∈ l2) → l1 = l2.
Proof.
  intros Hs1 Hs2 Hn1 Hn2 Heq.
  apply (StronglySorted_unique_strong doc_le); [|done..|].
  - intros [k1 u1] [k2 u2] H1 H2%Heq Hle1 Hle2. unfold doc_le in *.
    simpl in *. assert (k1 = k2) as -> by lia.
    f_equal. exact (NoDup_fst_functional l1 k2 u1 u2 Hn1 H1 H2).
  - apply NoDup_Permutation; [by eapply NoDup_fmap_1..|done].
Qed.

Lemma NoDup_fst_filter {A B} (P : A * B → Prop) `{!∀ x, Decision (P x)}
    (l : list (A * B)) :
  NoDup l.*1 → NoDup (filter P l).*1.
Proof.
  induction l as [|x l IH]; csimpl; [done|].
  intros [Hx Hl]%NoDup_cons. rewrite filter_cons.
  destruct (decide (P x)); csimpl; [|by auto].
  apply NoDup_cons. split; [|by auto].
  intros (y & Hy & [_ Hin]%list_elem_of_filter)%list_elem_of_fmap.
  apply Hx. rewrite Hy. by apply list_elem_of_fmap_2.
Qed.

(** A query by phone number sees only the records of that number. *)
Lemma where_phoneNumber_ext p (m1 m2 : gmap nat User) :
  (∀ k u, phoneNumber u = p → m1 !! k = Some u ↔ m2 !! k = Some u) →
  where_phoneNumber p m1 = where_phoneNumber p m2.
Proof.
  intros Hext. unfold where_phoneNumber.
  apply sorted_docs_unique.
  - apply StronglySorted_filter, StronglySorted_docs.
  - apply StronglySorted_filter, StronglySorted_docs.
  - apply NoDup_fst_filter, NoDup_docs.
  - apply NoDup_fst_filter, NoDup_docs.
  - intros [k u]. rewrite !list_elem_of_filter, !elem_of_docs. simpl.
    split; intros [Hp Hk]; (split; [done|]); by apply (Hext k u Hp).
Qed.

(** Replacing fields of the records keeps the documents in place. *)
Lemma docs_fmap (f : User → User) (m : gmap nat User) :
  docs (f <$> m) = prod_map id f <$> docs m.
Proof.
  apply sorted_docs_unique.
  - apply StronglySorted_docs.
  - eapply StronglySorted_fmap; [|apply StronglySorted_docs].
    by intros [] [].
  - apply NoDup_docs.
  - rewrite <-list_fmap_compose.
    rewrite (list_fmap_ext (fst ∘ prod_map id f) fst) by (by intros []).
    apply NoDup_docs.
  - intros [k u]. rewrite elem_of_docs, lookup_fmap, list_elem_of_fmap. split.
    + intros (u0 & Hu0 & ->)%fmap_Some. exists (k, u0).
      split; [done|]. by apply elem_of_docs.
    + intros ([k0 u0] & [= -> ->] & Hin%elem_of_docs). by rewrite Hin.
Qed.

(** ** More on the routing engine *)

Lemma truthy_inv x s : truthy x = Some s → x = Some s ∧ s ≠ "".
Proof.
  unfold truthy. destruct x as [s'|]; [|done].
  case_bool_decide; [done|]. by intros [= ->].
Qed.

Lemma forallb_delivered_true (sent : list Sms) :
  forallb delivered sent = true ↔ Forall (λ s, delivered s = true) sent.
Proof.
  rewrite forallb_forall, Forall_forall.
  split; intros H s Hs; apply H; by apply list_elem_of_In.
Qed.

Lemma holding_nil r w :
  Forall (λ u, r ∉ roles u) (contacts w) → holding r w = [].
Proof.
  intros Hall. unfold holding. apply elem_of_nil_inv.
  intros u [Hr Hu]%list_elem_of_filter.
  by apply (proj1 (Forall_forall _ _) Hall u).
Qed.

(** The handler reads its two parameters through their truthiness only. *)
Lemma handleSms_normalize gw req sender message w :
  truthy (sms_From req) = Some sender →
  truthy (sms_Body req) = Some message →
  handleSmsFunction gw req w =
  handleSmsFunction gw (mkSmsRequest (Some sender) (Some message)) w.
Proof.
  intros Hf Hb. pose proof (truthy_inv _ _ Hf) as [_ Hs].
  pose proof (truthy_inv _ _ Hb) as [_ Hm].
  unfold handleSmsFunction. cbn [sms_From sms_Body].
  by rewrite Hf, Hb, !truthy_Some.
Qed.

(** What every run of the handler on a well-formed webhook looks like: the
    directory is as before, the outbox has grown by the sends of this
    request, and the answer tells whether all of them were accepted. *)
Lemma handleSms_run_shape gw w sender message :
  sender ≠ "" → message ≠ "" →
  ∃ new n,
    handleSmsFunction gw (mkSmsRequest (Some sender) (Some message)) w =
    (if forallb delivered new then twiml else serverError,
     mkWorld (users w) n (commits w) (outbox w ++ new)).
Proof.
  intros Hs Hm.
  destruct (getUserByPhoneNumber sender w).1 as [[C|]|] eqn:Huser;
    [| |by rewrite getUserByPhoneNumber_fst in Huser].
  - destruct (decide (Role.STAFF ∈ roles C ∨ Role.SUPERVISOR ∈ roles C))
      as [Hrole|Hnone]; [|destruct (decide (Role.SUBSCRIBER ∈ roles C))].
    + rewrite (handleSms_originator_run gw w _ _ C) by done. cbv zeta.
      set (sent := broadcast gw w sender (name C) message).
      set (ok := gw _ sender broadcastDoneText).
      destruct (forallb delivered sent) eqn:Hsent.
      * exists (sent ++ [mkSms sender broadcastDoneText ok]), (3 + reads w).
        rewrite forallb_app, Hsent. simpl. by rewrite andb_true_r.
      * exists sent, (3 + reads w). by rewrite Hsent.
    + rewrite (handleSms_subscriber_run gw w _ _ C) by tauto. cbv zeta.
      set (sent := escalation gw w sender message).
      set (ok := gw _ sender forwardedText).
      destruct (forallb delivered sent) eqn:Hsent.
      * exists (sent ++ [mkSms sender forwardedText ok]), (2 + reads w).
        rewrite forallb_app, Hsent. simpl. by rewrite andb_true_r.
      * exists sent, (2 + reads w). by rewrite Hsent.
    + rewrite (handleSms_roleless_run gw w _ _ C) by tauto.
      exists [], (S (reads w)). by rewrite app_nil_r.
  - rewrite handleSms_unknown_run by done. cbv zeta. by eexists _, _.
Qed.

Lemma handleSms_missing_run gw req w :
  truthy (sms_From req) = None ∨ truthy (sms_Body req) = None →
  handleSmsFunction gw req w =
  (mkResponse 400 [] (Send "Missing required parameters"), w).
Proof.
  unfold handleSmsFunction, handler.
  intros [->| ->]; [done|]. by destruct (truthy (sms_From req)).
Qed.

(** X1.  A webhook whose [From] or [Body] is missing or empty is answered
    400 "Missing required parameters" before anything else happens: no
    lookup, no SMS, the world is as before.  No other request is answered
    400. *)
Theorem handleSms_rejects_missing_parameters gw (req : SmsRequest) (w : World) :
  (truthy (sms_From req) = None ∨ truthy (sms_Body req) = None →
     handleSmsFunction gw req w =
     (mkResponse 400 [] (Send "Missing required parameters"), w))
  ∧ (status (handleSmsFunction gw req w).1 = 400 →
     truthy (sms_From req) = None ∨ truthy (sms_Body req) = None).
Proof.
  split.
  - apply handleSms_missing_run.
  - destruct (truthy (sms_From req)) as [sender|] eqn:Hf; [|by left].
    destruct (truthy (sms_Body req)) as [message|] eqn:Hb; [|by right].
    rewrite (handleSms_normalize gw req sender message) by done.
    pose proof (truthy_inv _ _ Hf) as [_ Hs].
    pose proof (truthy_inv _ _ Hb) as [_ Hm].
    destruct (handleSms_run_shape gw w sender message Hs Hm)
      as (new & n & ->).
    by destruct (forallb delivered new).
Qed.

Lemma handleSms_rejects_missing_parameters_witness :
  handleSmsFunction accepting (mkSmsRequest (Some "+1B") (Some "")) scenario
  = (mkResponse 400 [] (Send "Missing required parameters"), scenario)
  ∧ (truthy (Some "+1B") = None ∨ truthy None = None).
Proof.
  split.
  - apply (handleSms_rejects_missing_parameters accepting
             (mkSmsRequest (Some "+1B") (Some "")) scenario).
    right. reflexivity.
  - apply (handleSms_rejects_missing_parameters accepting
             (mkSmsRequest (Some "+1B") None) scenario).
    reflexivity.
Defined.

(** X2.  Receiving a message never changes the directory: whatever the
    webhook, the gateway and the directory, the collection and the committed
    batches are as before, and the outbox keeps what it held, in front of
    the sends of this request. *)
Theorem handleSms_never_mutates_the_directory
    gw (req : SmsRequest) (w : World) :
  let r := handleSmsFunction gw req w in
  users r.2 = users w
  ∧ commits r.2 = commits w
  ∧ ∃ new, outbox r.2 = outbox w ++ new.
Proof.
  cbv zeta.
  destruct (truthy (sms_From req)) as [sender|] eqn:Hf;
    [destruct (truthy (sms_Body req)) as [message|] eqn:Hb|].
  - rewrite (handleSms_normalize gw req sender message) by done.
    pose proof (truthy_inv _ _ Hf) as [_ Hs].
    pose proof (truthy_inv _ _ Hb) as [_ Hm].
    destruct (handleSms_run_shape gw w sender message Hs Hm)
      as (new & n & ->).
    cbn [snd users commits outbox]. eauto.
  - rewrite handleSms_missing_run by (by right).
    cbn [snd]. split_and?; [done..|]. exists []. by rewrite app_nil_r.
  - rewrite handleSms_missing_run by (by left).
    cbn [snd]. split_and?; [done..|]. exists []. by rewrite app_nil_r.
Qed.

(** X3.  On a well-formed webhook the answer reports the gateway: it is the
    empty TwiML response with status 200 exactly when the gateway accepted
    every SMS this request handed to it (none at all included), and 500
    "Internal Server Error" exactly when it rejected one of them. *)
Theorem handleSms_answers_200_iff_every_send_was_accepted
    gw (w : World) (sender message : string) :
  sender ≠ "" → message ≠ "" →
  let r := handleSmsFunction gw
             (mkSmsRequest (Some sender) (Some message)) w in
  ∃ new,
    outbox r.2 = outbox w ++ new
    ∧ (r.1 = twiml ↔ Forall (λ s, delivered s = true) new)
    ∧ (r.1 = serverError ↔ Exists (λ s, delivered s = false) new).
Proof.
  intros Hs Hm. cbv zeta.
  destruct (handleSms_run_shape gw w sender message Hs Hm) as (new & n & ->).
  exists new. cbn [fst snd outbox]. split; [done|].
  rewrite <-forallb_delivered_true.
  destruct (forallb delivered new) eqn:Hall.
  - split; [done|]. split; [done|].
    intros Hex%forallb_delivered_false. congruence.
  - split; [done|]. split; [|done]. intros _.
    apply dec_stable. intros Hnex.
    assert (forallb delivered new = true); [|congruence].
    apply forallb_delivered_true, Forall_forall. intros s Hin.
    destruct (delivered s) eqn:Hd; [done|].
    exfalso. apply Hnex, Exists_exists. eauto.
Qed.

Lemma handleSms_answers_200_iff_every_send_was_accepted_witness :
  ∃ new,
    outbox (handleSmsFunction rejecting
              (mkSmsRequest (Some "+1B") (Some "help")) scenario).2
    = outbox scenario ++ new
    ∧ ((handleSmsFunction rejecting
          (mkSmsRequest (Some "+1B") (Some "help")) scenario).1 = twiml
       ↔ Forall (λ s, delivered s = true) new)
    ∧ ((handleSmsFunction rejecting
          (mkSmsRequest (Some "+1B") (Some "help")) scenario).1 = serverError
       ↔ Exists (λ s, delivered s = false) new).
Proof.
  apply (handleSms_answers_200_iff_every_send_was_accepted
           rejecting scenario "+1B" "help").
  - done.
  - done.
Defined.

(** X4.  When no contact holds the escalation role, an escalation reaches
    nobody, and the handler does not notice.  A message from an unknown
    number is answered 200 and sends nothing.  A message from a contact
    that the lookup resolves to, holding [SUBSCRIBER] and neither [STAFF]
    nor the escalation role, produces one SMS only: the confirmation to the
    sender that the message "has been forwarded to the administrators". *)
Theorem handleSms_escalation_without_reviewers
    gw (w : World) (sender message : string) :
  sender ≠ "" → message ≠ "" →
  Forall (λ u, Role.SUPERVISOR ∉ roles u) (contacts w) →
  let r := handleSmsFunction gw
             (mkSmsRequest (Some sender) (Some message)) w in
  ((getUserByPhoneNumber sender w).1 = Ok None →
     r.1 = twiml ∧ outbox r.2 = outbox w)
  ∧ (∀ C, (getUserByPhoneNumber sender w).1 = Ok (Some C) →
       Role.SUBSCRIBER ∈ roles C → Role.STAFF ∉ roles C →
       outbox r.2 =
         outbox w ++ [mkSms sender forwardedText
                        (gw (length (outbox w)) sender forwardedText)]).
Proof.
  intros Hs Hm Hnone. cbv zeta.
  assert (escalation gw w sender message = []) as Hesc.
  { unfold escalation. by rewrite holding_nil. }
  split.
  - intros Huser. rewrite handleSms_unknown_run by done. cbv zeta.
    rewrite Hesc. cbn [fst snd outbox forallb]. by rewrite app_nil_r.
  - intros C Huser Hsub Hstaff.
    assert (Role.SUPERVISOR ∉ roles C) as Hsup.
    { rewrite getUserByPhoneNumber_fst in Huser. injection Huser as Huser.
      destruct (head (where_phoneNumber sender (users w))) as [[k u]|] eqn:Hh;
        [|done].
      injection Huser as <-. apply head_Some_elem_of in Hh.
      apply list_elem_of_filter in Hh as [_ Hin%elem_of_docs].
      apply (proj1 (Forall_forall _ _) Hnone), elem_of_contacts. eauto. }
    rewrite (handleSms_subscriber_run gw w _ _ C) by done. cbv zeta.
    rewrite Hesc. cbn [fst snd outbox forallb]. by rewrite app_nil_r.
Qed.

Lemma handleSms_escalation_without_reviewers_witness :
  outbox (handleSmsFunction accepting
            (mkSmsRequest (Some "+1B") (Some "help")) (directory [Bob])).2
  = [mkSms "+1B" forwardedText true].
Proof.
  refine (proj2 (handleSms_escalation_without_reviewers
            accepting (directory [Bob]) "+1B" "help" _ _ _) Bob _ _ _).
  - done.
  - done.
  - apply (bool_decide_unpack _). by vm_compute.
  - by vm_compute.
  - by left.
  - apply (bool_decide_unpack _). by vm_compute.
Defined.

(** X5.  Each of the two fan-outs is fulfilled exactly when the gateway
    accepted every one of its sends; with no recipient it is fulfilled
    without sending anything.  Neither touches the collection or commits a
    batch. *)
Theorem fanout_fulfilled_iff_every_send_was_accepted
    gw (w : World) (fromNumber message : string) :
  let senderName :=
    match (getUserByPhoneNumber fromNumber w).1 with
    | Ok (Some sender) => name sender
    | _ => fromNumber
    end in
  let esc := escalation gw w fromNumber message in
  let bc := broadcast gw w fromNumber senderName message in
  let r1 := forwardMessageToAdmins gw fromNumber message w in
  let r2 := broadcastMessage gw fromNumber message w in
  (r1.1 = Ok tt ↔ Forall (λ s, delivered s = true) esc)
  ∧ (r2.1 = Ok tt ↔ Forall (λ s, delivered s = true) bc)
  ∧ outbox r1.2 = outbox w ++ esc
  ∧ outbox r2.2 = outbox w ++ bc
  ∧ users r1.2 = users w ∧ commits r1.2 = commits w
  ∧ users r2.2 = users w ∧ commits r2.2 = commits w.
Proof.
  cbv zeta. rewrite forwardMessageToAdmins_run.
  pose proof (broadcastMessage_run gw fromNumber message w) as Hrun.
  cbv zeta in Hrun. rewrite Hrun, getUserByPhoneNumber_fst.
  assert (match snd <$> head (where_phoneNumber fromNumber (users w)) with
          | Some sender => name sender
          | None => fromNumber
          end =
          match head (where_phoneNumber fromNumber (users w)) with
          | Some doc => name doc.2
          | None => fromNumber
          end) as ->
    by (by destruct (head (where_phoneNumber fromNumber (users w)))).
  cbn [fst snd users commits outbox]. rewrite <-!forallb_delivered_true.
  split_and?; try done.
  - by destruct (forallb delivered (escalation gw w fromNumber message)).
  - by destruct (forallb delivered (broadcast gw w fromNumber _ message)).
Qed.

(** ** More on the contact directory *)

(** X6.  [getUserByPhoneNumber] only reads.  It answers null exactly when
    no stored record has the number; otherwise it answers a stored record
    of that number, the one with the lowest document reference when several
    records share the number. *)
Theorem getUserByPhoneNumber_returns_the_first_match
    (w : World) (phone : string) :
  let r := getUserByPhoneNumber phone w in
  r.2 = afterRead w
  ∧ (∃ user, r.1 = Ok user)
  ∧ (r.1 = Ok None ↔ ∀ k u, users w !! k = Some u → phoneNumber u ≠ phone)
  ∧ (∀ u, r.1 = Ok (Some u) →
       ∃ k, users w !! k = Some u
            ∧ phoneNumber u = phone
            ∧ ∀ k' u', users w !! k' = Some u' → phoneNumber u' = phone →
                       k ≤ k').
Proof.
  cbv zeta. rewrite getUserByPhoneNumber_run. cbn [fst snd].
  split; [done|]. split; [by eexists|]. split.
  - rewrite <-where_phoneNumber_nil.
    destruct (where_phoneNumber phone (users w)); by split.
  - intros u [= Hu].
    pose proof (StronglySorted_filter doc_le (λ d, phoneNumber d.2 = phone)
                  _ (StronglySorted_docs (users w))) as Hsorted.
    fold (where_phoneNumber phone (users w)) in Hsorted.
    pose proof (elem_of_where_phoneNumber phone (users w)) as Hin.
    destruct (where_phoneNumber phone (users w)) as [|[k u0] l] eqn:Hsnap;
      [done|].
    injection Hu as ->. exists k.
    assert ((k, u) ∈ where_phoneNumber phone (users w)) as Hhead
      by (rewrite Hsnap; by left).
    apply list_elem_of_filter in Hhead as [Hp Hk%elem_of_docs].
    split; [done|]. split; [done|]. intros k' u' Hk' Hp'.
    assert (k' ∈ ((k, u) :: l).*1) as Hk'in by (apply Hin; eauto).
    csimpl in Hk'in. apply elem_of_cons in Hk'in as [->|Hl]; [done|].
    apply StronglySorted_inv in Hsorted as [_ Hall].
    apply list_elem_of_fmap in Hl as ([k'' u''] & -> & Hl).
    apply (proj1 (Forall_forall _ _) Hall) in Hl. exact Hl.
Qed.

Lemma contacts_Permutation w :
  contacts w ≡ₚ (map_to_list (users w)).*2.
Proof. unfold contacts, docs. by rewrite merge_sort_Permutation. Qed.

(** X7.  The two list handlers answer 200 with the full directory: every
    stored record exactly once, as many users as the collection has
    documents.  They change nothing but the count of queries. *)
Theorem listUsers_returns_every_record_once (w : World) :
  ∃ us,
    router.get_users w = (json 200 (JsonUsers us), afterRead w)
    ∧ (∀ req, method req = "GET" →
         listUsersFunction req w = (json 200 (JsonUsers us), afterRead w))
    ∧ us ≡ₚ (map_to_list (users w)).*2
    ∧ length us = size (users w)
    ∧ ∀ u, u ∈ us ↔ ∃ k, users w !! k = Some u.
Proof.
  exists (contacts w). split_and?.
  - reflexivity.
  - intros req Hm. unfold listUsersFunction. by rewrite Hm.
  - apply contacts_Permutation.
  - rewrite contacts_Permutation, length_fmap. apply length_map_to_list.
  - apply elem_of_contacts.
Qed.

Lemma listUsers_returns_every_record_once_witness :
  listUsersFunction (mkRequest "GET" "/listUsers" noBody) scenario
  = (json 200 (JsonUsers [Alice; Bob; Carol]), afterRead scenario).
Proof.
  destruct (listUsers_returns_every_record_once scenario)
    as (us & Hrouter & Hfunction & _).
  rewrite (Hfunction (mkRequest "GET" "/listUsers" noBody)) by reflexivity.
  rewrite <-Hrouter. by vm_compute.
Defined.

(** X8.  [listUsersByRole role] answers the stored records whose role set
    contains [role], each exactly once and no other, and only reads. *)
Theorem listUsersByRole_returns_exactly_the_holders
    (w : World) (role : string) :
  ∃ us,
    listUsersByRole role w = (Ok us, afterRead w)
    ∧ us ≡ₚ filter (λ u, role ∈ roles u) (map_to_list (users w)).*2
    ∧ ∀ u, u ∈ us ↔ role ∈ roles u ∧ ∃ k, users w !! k = Some u.
Proof.
  exists (holding role w). split_and?.
  - apply listUsersByRole_run.
  - unfold holding. by rewrite contacts_Permutation.
  - apply elem_of_holding.
Qed.

Lemma getUserByPhoneNumber_None_iff p w :
  (getUserByPhoneNumber p w).1 = Ok None ↔
  ∀ k u, users w !! k = Some u → phoneNumber u ≠ p.
Proof.
  rewrite getUserByPhoneNumber_fst, <-where_phoneNumber_nil.
  destruct (where_phoneNumber p (users w)); by split.
Qed.

Lemma getUserByPhoneNumber_Some_inv p w u :
  (getUserByPhoneNumber p w).1 = Ok (Some u) →
  ∃ k, users w !! k = Some u ∧ phoneNumber u = p.
Proof.
  rewrite getUserByPhoneNumber_fst. intros [= Hu].
  destruct (head (where_phoneNumber p (users w))) as [[k u0]|] eqn:Hh;
    [|done].
  injection Hu as <-. apply head_Some_elem_of in Hh.
  apply list_elem_of_filter in Hh as [Hp Hin%elem_of_docs]. eauto.
Qed.

Lemma getUserByPhoneNumber_ext p w1 w2 :
  (∀ k u, phoneNumber u = p →
          users w1 !! k = Some u ↔ users w2 !! k = Some u) →
  (getUserByPhoneNumber p w1).1 = (getUserByPhoneNumber p w2).1.
Proof.
  intros Hext. rewrite !getUserByPhoneNumber_fst.
  by rewrite (where_phoneNumber_ext p (users w1) (users w2)).
Qed.

Lemma addUser_run nm phone rs w :
  ∃ k, users w !! k = None
       ∧ addUser nm phone rs w =
         (Ok tt, mkWorld (<[k := mkUser nm phone rs]> (users w))
                         (reads w) (commits w) (outbox w)).
Proof.
  exists (fresh (dom (users w))). split; [|done].
  apply not_elem_of_dom, is_fresh.
Qed.

Lemma docs_insert_Permutation (m : gmap nat User) k u :
  m !! k = None → docs (<[k := u]> m) ≡ₚ (k, u) :: docs m.
Proof.
  intros Hk. unfold docs.
  by rewrite !merge_sort_Permutation, map_to_list_insert.
Qed.

(** X9.  [addUser] checks nothing.  It always succeeds and stores one new
    record with the given name, number and roles under a reference that was
    free; every record that was there stays as it was, and the number of
    records carrying the phone number grows by exactly one, also when it was
    not zero before. *)
Theorem addUser_always_inserts_one_record
    (w : World) (nm phone : string) (rs : list string) :
  let r := addUser nm phone rs w in
  r.1 = Ok tt
  ∧ reads r.2 = reads w ∧ commits r.2 = commits w ∧ outbox r.2 = outbox w
  ∧ contacts r.2 ≡ₚ mkUser nm phone rs :: contacts w
  ∧ (∀ k u, users w !! k = Some u → users r.2 !! k = Some u)
  ∧ length (where_phoneNumber phone (users r.2)) =
      S (length (where_phoneNumber phone (users w))).
Proof.
  cbv zeta. destruct (addUser_run nm phone rs w) as (k & Hk & ->).
  cbn [fst snd users reads commits outbox]. split_and?; try done.
  - unfold contacts. cbn [users]. by rewrite docs_insert_Permutation.
  - intros k' u Hk'. rewrite lookup_insert_ne; [done|]. congruence.
  - unfold where_phoneNumber. rewrite docs_insert_Permutation by done.
    by rewrite filter_cons_True.
Qed.

(** ** Validation and the add-user handlers *)

Lemma firstInvalidRole_None (rs : list Json) :
  firstInvalidRole rs = None ↔
  Forall (λ role, role ∈ JString <$> Role.values) rs.
Proof.
  unfold firstInvalidRole. induction rs as [|role rs IH]; simpl.
  - split; [constructor|done].
  - rewrite Forall_cons, <-IH, <-isRole_spec.
    destruct (isRole role); simpl; [tauto|]. split; [done|]. by intros [? _].
Qed.

Lemma asRoles_valid (rs : list Json) :
  Forall (λ role, role ∈ JString <$> Role.values) rs →
  JString <$> asRoles rs = rs ∧ Forall (λ r, r ∈ Role.values) (asRoles rs).
Proof.
  unfold asRoles. induction 1 as [|role rs Hrole _ [IH1 IH2]]; csimpl.
  - split; [done|constructor].
  - apply list_elem_of_fmap in Hrole as (s & -> & Hs). csimpl.
    split; [by rewrite IH1|by constructor].
Qed.

(** X12.  The validation loop of the add and update handlers lets an array
    through exactly when every token is a string that is a value of the
    [Role] enumeration (the empty array included); what is then passed on as
    roles is the array itself.  Otherwise it stops at the first token that
    is not, all tokens before it being valid. *)
Theorem role_validation_accepts_exactly_the_enumeration (rs : list Json) :
  (firstInvalidRole rs = None ↔
     Forall (λ role, role ∈ JString <$> Role.values) rs)
  ∧ (firstInvalidRole rs = None →
       JString <$> asRoles rs = rs
       ∧ Forall (λ r, r ∈ Role.values) (asRoles rs))
  ∧ (∀ bad, firstInvalidRole rs = Some bad →
       (bad ∉ JString <$> Role.values)
       ∧ ∃ before after,
           rs = before ++ bad :: after
           ∧ Forall (λ role, role ∈ JString <$> Role.values) before).
Proof.
  split; [apply firstInvalidRole_None|]. split.
  - intros Hnone%firstInvalidRole_None. by apply asRoles_valid.
  - unfold firstInvalidRole. induction rs as [|role rs IH]; simpl; [done|].
    intros bad. destruct (isRole role) eqn:His; simpl.
    + intros (Hbad & before & after & -> & Hbefore)%IH.
      split; [done|]. exists (role :: before), after.
      split; [done|]. constructor; [by apply isRole_spec|done].
    + intros [= <-]. split.
      * intros Hin%isRole_spec. congruence.
      * exists [], rs. split; [done|constructor].
Qed.

Lemma role_validation_accepts_exactly_the_enumeration_witness :
  firstInvalidRole [JString "STAFF"; JString "staff"; JNumber 7]
  = Some (JString "staff")
  ∧ JString "staff" ∉ (JString <$> Role.values).
Proof.
  split; [reflexivity|].
  apply (proj2 (proj2 (role_validation_accepts_exactly_the_enumeration
           [JString "STAFF"; JString "staff"; JNumber 7]))
           (JString "staff")).
  reflexivity.
Defined.

Lemma where_phoneNumber_Exists_head p w :
  Exists (λ u, phoneNumber u = p) (contacts w) →
  ∃ u, (getUserByPhoneNumber p w).1 = Ok (Some u).
Proof.
  intros Hne%where_phoneNumber_Exists. rewrite getUserByPhoneNumber_fst.
  destruct (where_phoneNumber p (users w)) as [|d l]; [done|]. by eexists.
Qed.

(** X10.  An add request that passes validation for a phone number some
    record already carries is answered 409 "User with this phone number
    already exists", by the cloud function and by the router; nothing is
    stored. *)
Theorem add_handlers_answer_409_for_a_known_number
    (w : World) (b : UserBody) (nm phone : string) (tokens : list Json) :
  truthy (body_name b) = Some nm →
  truthy (body_phoneNumber b) = Some phone →
  body_roles b = Some (JArray tokens) →
  Forall (λ role, role ∈ JString <$> Role.values) tokens →
  Exists (λ u, phoneNumber u = phone) (contacts w) →
  let conflict :=
    json 409 (JsonError "User with this phone number already exists") in
  router.post_users b w = (conflict, afterRead w)
  ∧ ∀ req, method req = "POST" → reqBody req = b →
      addUserFunction req w = (conflict, afterRead w).
Proof.
  intros Hn Hp Hb Hvalid%firstInvalidRole_None Hex. cbv zeta.
  assert (addUserSteps b w =
          (Ok (json 409
                 (JsonError "User with this phone number already exists")),
           afterRead w)) as Hsteps.
  { unfold addUserSteps. rewrite Hn, Hp, Hb, Hvalid.
    unfold mbind, M_bind, bind. rewrite getUserByPhoneNumber_run.
    apply where_phoneNumber_Exists in Hex.
    by destruct (where_phoneNumber phone (users w)). }
  split.
  - unfold router.post_users, handler. by rewrite Hsteps.
  - intros req Hm <-. unfold addUserFunction, handler.
    rewrite Hm, bool_decide_eq_true_2 by done. cbn [negb].
    by rewrite Hsteps.
Qed.

Lemma add_handlers_answer_409_for_a_known_number_witness :
  router.post_users
    (mkUserBody (Some "Robert") (Some "+1B") (Some (JArray [JString "STAFF"])))
    scenario
  = (json 409 (JsonError "User with this phone number already exists"),
     afterRead scenario).
Proof.
  refine (proj1 (add_handlers_answer_409_for_a_known_number scenario
            (mkUserBody (Some "Robert") (Some "+1B")
               (Some (JArray [JString "STAFF"])))
            "Robert" "+1B" [JString "STAFF"] _ _ _ _ _)).
  - reflexivity.
  - reflexivity.
  - reflexivity.
  - apply Forall_cons. split; [|constructor].
    apply (list_elem_of_fmap_2 JString). apply (bool_decide_unpack _).
    by vm_compute.
  - apply (bool_decide_unpack _). by vm_compute.
Defined.

(** X11.  An add request that passes validation for a phone number no
    record carries is answered 201; the collection gains one record, with
    the name, the number and exactly the role tokens of the request, under a
    reference that was free.  From then on the lookup of that number (and
    the get-user route) answers this record, and the lookup of every other
    number answers what it answered before. *)
Theorem add_handlers_store_what_lookup_then_returns
    (w : World) (b : UserBody) (nm phone : string) (tokens : list Json) :
  truthy (body_name b) = Some nm →
  truthy (body_phoneNumber b) = Some phone →
  body_roles b = Some (JArray tokens) →
  Forall (λ role, role ∈ JString <$> Role.values) tokens →
  Forall (λ u, phoneNumber u ≠ phone) (contacts w) →
  let r := router.post_users b w in
  let new := mkUser nm phone (asRoles tokens) in
  r.1 = json 201 (JsonMessage "User added successfully")
  ∧ (∀ req, method req = "POST" → reqBody req = b →
       addUserFunction req w = r)
  ∧ (∃ k, users w !! k = None ∧ users r.2 = <[k := new]> (users w))
  ∧ commits r.2 = commits w ∧ outbox r.2 = outbox w
  ∧ JString <$> roles new = tokens
  ∧ (getUserByPhoneNumber phone r.2).1 = Ok (Some new)
  ∧ (router.get_user phone r.2).1 = json 200 (JsonUser new)
  ∧ ∀ q, q ≠ phone →
      (getUserByPhoneNumber q r.2).1 = (getUserByPhoneNumber q w).1.
Proof.
  intros Hn Hp Hb Hvalid Habsent. cbv zeta.
  pose proof (proj2 (firstInvalidRole_None tokens) Hvalid) as Hfirst.
  pose proof (truthy_inv _ _ Hp) as [_ Hphone].
  pose proof (proj1 (where_phoneNumber_Forall phone w) Habsent) as Hnil.
  destruct (addUser_run nm phone (asRoles tokens) (afterRead w))
    as (k & Hk & Hadd). cbn [users afterRead] in Hk.
  assert (addUserSteps b w =
          (Ok (json 201 (JsonMessage "User added successfully")),
           mkWorld (<[k := mkUser nm phone (asRoles tokens)]> (users w))
                   (S (reads w)) (commits w) (outbox w))) as Hsteps.
  { unfold addUserSteps. rewrite Hn, Hp, Hb, Hfirst.
    unfold mbind, M_bind, bind. rewrite getUserByPhoneNumber_run, Hnil.
    cbn [head fmap option_fmap option_map]. by rewrite Hadd. }
  assert (router.post_users b w =
          (json 201 (JsonMessage "User added successfully"),
           mkWorld (<[k := mkUser nm phone (asRoles tokens)]> (users w))
                   (S (reads w)) (commits w) (outbox w))) as ->.
  { unfold router.post_users, handler. by rewrite Hsteps. }
  cbn [fst snd users commits outbox roles].
  assert ((getUserByPhoneNumber phone
             (mkWorld (<[k := mkUser nm phone (asRoles tokens)]> (users w))
                      (S (reads w)) (commits w) (outbox w))).1
          = Ok (Some (mkUser nm phone (asRoles tokens)))) as Hlookup.
  { set (w' := mkWorld _ _ _ _).
    destruct (where_phoneNumber_Exists_head phone w') as [u Hu].
    { apply Exists_exists. exists (mkUser nm phone (asRoles tokens)).
      split; [|done]. apply elem_of_contacts. exists k.
      apply lookup_insert_eq. }
    rewrite Hu. do 2 f_equal.
    apply getUserByPhoneNumber_Some_inv in Hu as (k' & Hk' & Hpu).
    cbn [users w'] in Hk'.
    apply lookup_insert_Some in Hk' as [[_ <-]|[_ Hold]]; [done|].
    exfalso. by eapply (proj1 (where_phoneNumber_nil _ _) Hnil). }
  split_and?; try done.
  - intros req Hm <-. unfold addUserFunction, handler.
    rewrite Hm, bool_decide_eq_true_2 by done. cbn [negb].
    by rewrite Hsteps.
  - eauto.
  - by apply asRoles_valid.
  - unfold router.get_user, handler. rewrite truthy_Some by done.
    unfold mbind, M_bind, bind.
    destruct (getUserByPhoneNumber phone _) as [res w''] eqn:Hget.
    cbn [fst] in Hlookup. by rewrite Hlookup.
  - intros q Hq. apply getUserByPhoneNumber_ext. cbn [users].
    intros k' u Hu. rewrite lookup_insert_Some. split.
    + intros [[_ <-]|[_ Hold]]; [done|done].
    + intros Hold. right. split; [|done]. congruence.
Qed.

Lemma add_handlers_store_what_lookup_then_returns_witness :
  (router.get_user "+1D"
     (router.post_users
        (mkUserBody (Some "Dave") (Some "+1D")
                    (Some (JArray [JString "SUBSCRIBER"])))
        scenario).2).1
  = json 200 (JsonUser Dave).
Proof.
  refine (proj1 (proj2 (proj2 (proj2 (proj2 (proj2 (proj2 (proj2
            (add_handlers_store_what_lookup_then_returns scenario
               (mkUserBody (Some "Dave") (Some "+1D")
                  (Some (JArray [JString "SUBSCRIBER"])))
               "Dave" "+1D" [JString "SUBSCRIBER"] _ _ _ _ _))))))))).
  - reflexivity.
  - reflexivity.
  - reflexivity.
  - apply Forall_cons. split; [|constructor].
    apply (list_elem_of_fmap_2 JString). apply (bool_decide_unpack _).
    by vm_compute.
  - apply (bool_decide_unpack _). by vm_compute.
Defined.

(** ** The update, delete and get handlers *)

Lemma isNoUserFound_thrown phone :
  isNoUserFound (JsError ("No user found with phone number " +:+ phone))
  = true.
Proof. by apply bool_decide_eq_true_2. Qed.

Lemma updateUserSteps_absent phone b tokens w :
  body_roles b = Some (JArray tokens) →
  Forall (λ role, role ∈ JString <$> Role.values) tokens →
  Forall (λ u, phoneNumber u ≠ phone) (contacts w) →
  updateUserSteps phone b w = (Ok userNotFound, afterRead w).
Proof.
  intros Hb Hvalid%firstInvalidRole_None Hnil%where_phoneNumber_Forall.
  unfold updateUserSteps. rewrite Hb, Hvalid.
  unfold mbind, M_bind, bind, try_catch.
  rewrite updateUserRoles_absent by done.
  by rewrite isNoUserFound_thrown.
Qed.

Lemma updateUserSteps_found phone b tokens w :
  body_roles b = Some (JArray tokens) →
  Forall (λ role, role ∈ JString <$> Role.values) tokens →
  Exists (λ u, phoneNumber u = phone) (contacts w) →
  updateUserSteps phone b w =
  (Ok (json 200 (JsonMessage "User updated successfully")),
   (updateUserRoles phone (asRoles tokens) w).2).
Proof.
  intros Hb Hvalid%firstInvalidRole_None Hne%where_phoneNumber_Exists.
  unfold updateUserSteps. rewrite Hb, Hvalid.
  unfold mbind, M_bind, bind, try_catch.
  by rewrite updateUserRoles_found.
Qed.

(** X13.  An update request that passes validation is answered 404 "User
    not found", with the collection and the committed batches as before,
    when no record carries the number; and 200 "User updated successfully"
    when one does, after which every record of that number has exactly the
    role tokens of the request and is otherwise as before, like all other
    records.  The cloud function and the router agree. *)
Theorem update_handlers_answer_404_or_replace_the_roles
    (w : World) (phone : string) (b : UserBody) (tokens : list Json) :
  phone ≠ "" →
  body_roles b = Some (JArray tokens) →
  Forall (λ role, role ∈ JString <$> Role.values) tokens →
  let r := router.put_user phone b w in
  (∀ req, method req = "PUT" → lastSegment (path req) = phone →
     reqBody req = b → updateUserFunction req w = r)
  ∧ (Forall (λ u, phoneNumber u ≠ phone) (contacts w) →
       r = (userNotFound, afterRead w))
  ∧ (Exists (λ u, phoneNumber u = phone) (contacts w) →
       r.1 = json 200 (JsonMessage "User updated successfully")
       ∧ JString <$> asRoles tokens = tokens
       ∧ ∀ k, users r.2 !! k =
              (λ u, if bool_decide (phoneNumber u = phone)
                    then mkUser (name u) (phoneNumber u) (asRoles tokens)
                    else u)
              <$> users w !! k).
Proof.
  intros Hp Hb Hvalid. cbv zeta. split_and?.
  - intros req Hm Hseg <-. unfold updateUserFunction, router.put_user.
    by rewrite Hm, Hseg, bool_decide_eq_true_2.
  - intros Habs. unfold router.put_user, handler.
    rewrite truthy_Some by done.
    by rewrite (updateUserSteps_absent phone b tokens).
  - intros Hex. unfold router.put_user, handler.
    rewrite truthy_Some by done.
    rewrite (updateUserSteps_found phone b tokens) by done.
    rewrite updateUserRoles_found by (by apply where_phoneNumber_Exists).
    cbn [fst snd users]. split; [done|]. split; [by apply asRoles_valid|].
    intros k. unfold reroled. by rewrite lookup_fmap.
Qed.

Lemma update_handlers_answer_404_or_replace_the_roles_witness :
  router.put_user "+1X"
    (mkUserBody None None (Some (JArray [JString "STAFF"]))) scenario
  = (userNotFound, afterRead scenario)
  ∧ (router.put_user "+1B"
       (mkUserBody None None (Some (JArray [JString "STAFF"]))) scenario).1
    = json 200 (JsonMessage "User updated successfully").
Proof.
  assert (Forall (λ role, role ∈ JString <$> Role.values) [JString "STAFF"])
    as Hvalid.
  { apply Forall_cons. split; [|constructor].
    apply (list_elem_of_fmap_2 JString). apply (bool_decide_unpack _).
    by vm_compute. }
  split.
  - apply (update_handlers_answer_404_or_replace_the_roles scenario "+1X"
             (mkUserBody None None (Some (JArray [JString "STAFF"])))
             [JString "STAFF"]); [done|reflexivity|exact Hvalid|].
    apply (bool_decide_unpack _). by vm_compute.
  - apply (update_handlers_answer_404_or_replace_the_roles scenario "+1B"
             (mkUserBody None None (Some (JArray [JString "STAFF"])))
             [JString "STAFF"]); [done|reflexivity|exact Hvalid|].
    apply (bool_decide_unpack _). by vm_compute.
Defined.

Lemma filter_phone_fmap (f : User → User) p (l : list (nat * User)) :
  (∀ u, phoneNumber (f u) = phoneNumber u) →
  filter (λ d, phoneNumber d.2 = p) (prod_map id f <$> l) =
  prod_map id f <$> filter (λ d, phoneNumber d.2 = p) l.
Proof.
  intros Hf. induction l as [|[k u] l IH]; [done|]. csimpl.
  rewrite !filter_cons. simpl.
  destruct (decide (phoneNumber (f u) = p)) as [H1|H1],
    (decide (phoneNumber u = p)) as [H2|H2]; csimpl;
    rewrite ?IH; try done; rewrite Hf in H1; done.
Qed.

Lemma where_phoneNumber_fmap (f : User → User) p (m : gmap nat User) :
  (∀ u, phoneNumber (f u) = phoneNumber u) →
  where_phoneNumber p (f <$> m) = prod_map id f <$> where_phoneNumber p m.
Proof.
  intros Hf. unfold where_phoneNumber. rewrite docs_fmap.
  by apply filter_phone_fmap.
Qed.

(** X14.  After [updateUserRoles phone rs] has succeeded, the lookup of
    [phone] answers the record it answered before, now with the role set
    [rs] and the same name and number; the lookup of any other number
    answers what it answered before. *)
Theorem updateUserRoles_then_lookup
    (w : World) (phone : string) (rs : list string) (u : User) :
  (getUserByPhoneNumber phone w).1 = Ok (Some u) →
  let w' := (updateUserRoles phone rs w).2 in
  (updateUserRoles phone rs w).1 = Ok tt
  ∧ (getUserByPhoneNumber phone w').1 = Ok (Some (mkUser (name u) phone rs))
  ∧ ∀ q, q ≠ phone →
      (getUserByPhoneNumber q w').1 = (getUserByPhoneNumber q w).1.
Proof.
  intros Hu. cbv zeta.
  pose proof (getUserByPhoneNumber_Some_inv _ _ _ Hu) as (k & Hk & Hp).
  assert (where_phoneNumber phone (users w) ≠ []) as Hne.
  { intros Hnil. by eapply (proj1 (where_phoneNumber_nil _ _) Hnil). }
  rewrite updateUserRoles_found by done. cbn [fst snd].
  split; [done|]. split.
  - rewrite getUserByPhoneNumber_fst in Hu |- *. cbn [users].
    pose proof (where_phoneNumber_fmap
      (λ u, if bool_decide (phoneNumber u = phone) then withRoles rs u else u)
      phone (users w)) as Hfmap.
    unfold reroled. rewrite Hfmap by (by intros u'; case_bool_decide).
    destruct (where_phoneNumber phone (users w)) as [|[k0 u0] l]; [done|].
    injection Hu as [= ->]. csimpl.
    rewrite bool_decide_eq_true_2 by done. unfold withRoles.
    by rewrite Hp.
  - intros q Hq. apply getUserByPhoneNumber_ext. cbn [users].
    intros k' u' Hu'. unfold reroled. rewrite lookup_fmap. split.
    + intros (u0 & Hu0 & ->)%fmap_Some. revert Hu'.
      case_bool_decide; [|done]. simpl. congruence.
    + intros Hold. rewrite Hold. simpl.
      rewrite bool_decide_eq_false_2; [done|congruence].
Qed.

Lemma updateUserRoles_then_lookup_witness :
  (getUserByPhoneNumber "+1B"
     (updateUserRoles "+1B" [Role.STAFF] scenario).2).1
  = Ok (Some (mkUser "Bob" "+1B" [Role.STAFF])).
Proof.
  refine (proj1 (proj2 (updateUserRoles_then_lookup
            scenario "+1B" [Role.STAFF] Bob _))).
  by vm_compute.
Defined.

Lemma docs_without p (m : gmap nat User) :
  docs (without p m) = filter (λ d, phoneNumber d.2 ≠ p) (docs m).
Proof.
  apply sorted_docs_unique.
  - apply StronglySorted_docs.
  - apply StronglySorted_filter, StronglySorted_docs.
  - apply NoDup_docs.
  - apply NoDup_fst_filter, NoDup_docs.
  - intros [k u]. rewrite list_elem_of_filter, !elem_of_docs.
    unfold without. rewrite map_lookup_filter_Some. simpl. tauto.
Qed.

(** X15.  After [removeUser phone], the lookup of [phone] answers null,
    the directory is the old one without the records of that number, the
    others in their order, and the lookup of any other number answers what
    it answered before. *)
Theorem removeUser_then_lookup (w : World) (phone : string) :
  let w' := (removeUser phone w).2 in
  (getUserByPhoneNumber phone w').1 = Ok None
  ∧ contacts w' = filter (λ u, phoneNumber u ≠ phone) (contacts w)
  ∧ ∀ q, q ≠ phone →
      (getUserByPhoneNumber q w').1 = (getUserByPhoneNumber q w).1.
Proof.
  cbv zeta. rewrite removeUser_run. cbn [snd]. split_and?.
  - apply getUserByPhoneNumber_None_iff. cbn [users]. intros k u Hk.
    unfold without in Hk. by apply map_lookup_filter_Some in Hk as [_ Hk].
  - unfold contacts. cbn [users]. rewrite docs_without.
    apply (map_snd_filter (λ u, phoneNumber u ≠ phone)).
  - intros q Hq. apply getUserByPhoneNumber_ext. cbn [users].
    intros k u Hu. unfold without. rewrite map_lookup_filter_Some. simpl.
    split; [tauto|]. intros Hk. split; [done|congruence].
Qed.

Lemma addUserSteps_fresh (w : World) (b : UserBody) (nm phone : string)
    (tokens : list Json) :
  truthy (body_name b) = Some nm →
  truthy (body_phoneNumber b) = Some phone →
  body_roles b = Some (JArray tokens) →
  Forall (λ role, role ∈ JString <$> Role.values) tokens →
  Forall (λ u, phoneNumber u ≠ phone) (contacts w) →
  ∃ k, users w !! k = None
       ∧ addUserSteps b w =
         (Ok (json 201 (JsonMessage "User added successfully")),
          mkWorld (<[k := mkUser nm phone (asRoles tokens)]> (users w))
                  (S (reads w)) (commits w) (outbox w)).
Proof.
  intros Hn Hp Hb Hvalid%firstInvalidRole_None Hnil%where_phoneNumber_Forall.
  destruct (addUser_run nm phone (asRoles tokens) (afterRead w))
    as (k & Hk & Hadd).
  exists k. split; [done|].
  unfold addUserSteps. rewrite Hn, Hp, Hb, Hvalid.
  unfold mbind, M_bind, bind. rewrite getUserByPhoneNumber_run, Hnil.
  cbn [head fmap option_fmap option_map]. by rewrite Hadd.
Qed.

(** X16.  Adding a contact for a number no record carries and then
    deleting that number gives back the collection as it was: the two
    requests are answered 201 and 200, and no other record is affected. *)
Theorem add_then_delete_restores_the_directory
    (w : World) (b : UserBody) (nm phone : string) (tokens : list Json) :
  truthy (body_name b) = Some nm →
  truthy (body_phoneNumber b) = Some phone →
  body_roles b = Some (JArray tokens) →
  Forall (λ role, role ∈ JString <$> Role.values) tokens →
  Forall (λ u, phoneNumber u ≠ phone) (contacts w) →
  let r1 := router.post_users b w in
  let r2 := router.delete_user phone r1.2 in
  r1.1 = json 201 (JsonMessage "User added successfully")
  ∧ r2.1 = json 200 (JsonMessage "User removed successfully")
  ∧ users r2.2 = users w.
Proof.
  intros Hn Hp Hb Hvalid Habsent. cbv zeta.
  pose proof (truthy_inv _ _ Hp) as [_ Hphone].
  destruct (addUserSteps_fresh w b nm phone tokens Hn Hp Hb Hvalid Habsent)
    as (k & Hk & Hsteps).
  assert (router.post_users b w =
          (json 201 (JsonMessage "User added successfully"),
           mkWorld (<[k := mkUser nm phone (asRoles tokens)]> (users w))
                   (S (reads w)) (commits w) (outbox w))) as ->.
  { unfold router.post_users, handler. by rewrite Hsteps. }
  cbn [fst snd]. split; [done|].
  unfold router.delete_user, handler. rewrite truthy_Some by done.
  rewrite deleteUserSteps_found.
  - rewrite removeUser_run. cbn [fst snd users afterRead].
    split; [done|]. unfold without.
    rewrite map_filter_insert_False by (simpl; auto).
    rewrite delete_id by done.
    apply map_filter_id. intros k' u Hk'. simpl.
    apply (proj1 (Forall_forall _ _) Habsent), elem_of_contacts. eauto.
  - apply Exists_exists. exists (mkUser nm phone (asRoles tokens)).
    split; [|done]. apply elem_of_contacts. exists k.
    apply lookup_insert_eq.
Qed.

Lemma add_then_delete_restores_the_directory_witness :
  users (router.delete_user "+1D"
           (router.post_users
              (mkUserBody (Some "Dave") (Some "+1D")
                          (Some (JArray [JString "SUBSCRIBER"])))
              scenario).2).2
  = users scenario.
Proof.
  refine (proj2 (proj2 (add_then_delete_restores_the_directory scenario
            (mkUserBody (Some "Dave") (Some "+1D")
               (Some (JArray [JString "SUBSCRIBER"])))
            "Dave" "+1D" [JString "SUBSCRIBER"] _ _ _ _ _))).
  - reflexivity.
  - reflexivity.
  - reflexivity.
  - apply Forall_cons. split; [|constructor].
    apply (list_elem_of_fmap_2 JString). apply (bool_decide_unpack _).
    by vm_compute.
  - apply (bool_decide_unpack _). by vm_compute.
Defined.

(** ** The phone number in the path *)

Lemma append_cons x (a b : string) : String x a +:+ b = String x (a +:+ b).
Proof. reflexivity. Qed.

Lemma append_nil_r (a : string) : a +:+ "" = a.
Proof.
  induction a as [|x a IH]; [done|]. by rewrite append_cons, IH.
Qed.

Lemma append_assoc (a b c : string) : (a +:+ b) +:+ c = a +:+ (b +:+ c).
Proof.
  induction a as [|x a IH]; [done|]. by rewrite !append_cons, IH.
Qed.

Lemma lastSegmentFrom_append cur (a b : string) :
  lastSegmentFrom cur (a +:+ b) = lastSegmentFrom (lastSegmentFrom cur a) b.
Proof.
  revert cur. induction a as [|c a IH]; intros cur; [done|].
  rewrite append_cons. simpl. case_bool_decide; apply IH.
Qed.

Lemma lastSegmentFrom_no_slash cur (s : string) :
  "/"%char ∉ String.list_ascii_of_string s →
  lastSegmentFrom cur s = cur +:+ s.
Proof.
  revert cur. induction s as [|c s IH]; intros cur Hs; simpl.
  - by rewrite append_nil_r.
  - simpl in Hs. apply not_elem_of_cons in Hs as [Hc Hs].
    rewrite bool_decide_eq_false_2 by done.
    rewrite IH by done. by rewrite append_assoc.
Qed.

Lemma lastSegmentFrom_has_no_slash cur (s : string) :
  "/"%char ∉ String.list_ascii_of_string cur →
  "/"%char ∉ String.list_ascii_of_string (lastSegmentFrom cur s).
Proof.
  revert cur. induction s as [|c s IH]; intros cur Hcur; simpl; [done|].
  case_bool_decide as Hc.
  - apply IH. simpl. apply not_elem_of_nil.
  - apply IH. clear IH. induction cur as [|x cur IHc]; simpl in *.
    + apply not_elem_of_cons. split; [done|apply not_elem_of_nil].
    + apply not_elem_of_cons in Hcur as [Hx Hcur].
      apply not_elem_of_cons. split; [done|]. by apply IHc.
Qed.

(** X17.  [req.path.split('/').pop()] is what follows the last slash of
    the path: a phone number without a slash is read back from any path
    that ends in a slash and that number, the whole path is taken when it
    has no slash, what is read never contains a slash, and a path that ends
    in a slash gives the empty string. *)
Theorem lastSegment_is_what_follows_the_last_slash :
  (∀ prefix s, "/"%char ∉ String.list_ascii_of_string s →
     lastSegment (prefix +:+ "/" +:+ s) = s)
  ∧ (∀ s, "/"%char ∉ String.list_ascii_of_string s → lastSegment s = s)
  ∧ (∀ p, "/"%char ∉ String.list_ascii_of_string (lastSegment p))
  ∧ (∀ prefix, lastSegment (prefix +:+ "/") = "").
Proof.
  assert (∀ prefix s, "/"%char ∉ String.list_ascii_of_string s →
            lastSegment (prefix +:+ "/" +:+ s) = s) as Hmain.
  { intros prefix s Hs. unfold lastSegment.
    rewrite lastSegmentFrom_append. simpl.
    by rewrite lastSegmentFrom_no_slash. }
  split_and?.
  - exact Hmain.
  - intros s Hs. unfold lastSegment. by rewrite lastSegmentFrom_no_slash.
  - intros p. apply lastSegmentFrom_has_no_slash. simpl. apply not_elem_of_nil.
  - intros prefix. unfold lastSegment.
    by rewrite lastSegmentFrom_append.
Qed.

Lemma lastSegment_is_what_follows_the_last_slash_witness :
  lastSegment ("/api/getUser" +:+ "/" +:+ "+15551234567") = "+15551234567".
Proof.
  apply (proj1 lastSegment_is_what_follows_the_last_slash).
  apply (bool_decide_unpack _). by vm_compute.
Defined.

(** X18.  The get-user handlers only read.  For a number without a slash
    at the end of the path, the cloud function answers what the router
    answers for that number: 404 "User not found" exactly when no record
    carries it, otherwise 200 with a stored record of that number.  A path
    that ends in a slash is answered 400 "Phone number is required" without
    a lookup. *)
Theorem get_handlers_answer_a_stored_record_or_404
    (w : World) (prefix phone : string) :
  phone ≠ "" → "/"%char ∉ String.list_ascii_of_string phone →
  let r := router.get_user phone w in
  (∀ req, method req = "GET" → path req = prefix +:+ "/" +:+ phone →
     getUserFunction req w = r)
  ∧ (∀ req, method req = "GET" → path req = prefix +:+ "/" →
     getUserFunction req w = (phoneRequired, w))
  ∧ r.2 = afterRead w
  ∧ (r.1 = userNotFound ↔
       ∀ k u, users w !! k = Some u → phoneNumber u ≠ phone)
  ∧ (r.1 ≠ userNotFound →
       ∃ k u, r.1 = json 200 (JsonUser u)
              ∧ users w !! k = Some u ∧ phoneNumber u = phone).
Proof.
  intros Hp Hslash. cbv zeta.
  assert (router.get_user phone w =
          (match (getUserByPhoneNumber phone w).1 with
           | Ok (Some u) => json 200 (JsonUser u)
           | _ => userNotFound
           end, afterRead w)) as Hrun.
  { unfold router.get_user, handler. rewrite truthy_Some by done.
    unfold mbind, M_bind, bind. rewrite getUserByPhoneNumber_run.
    by destruct (head (where_phoneNumber phone (users w))). }
  split_and?.
  - intros req Hm Hpath. unfold getUserFunction, router.get_user.
    rewrite Hm, Hpath, bool_decide_eq_true_2 by done. cbn [negb].
    unfold lastSegment. rewrite lastSegmentFrom_append. simpl.
    by rewrite lastSegmentFrom_no_slash.
  - intros req Hm Hpath. unfold getUserFunction, handler.
    rewrite Hm, Hpath, bool_decide_eq_true_2 by done. cbn [negb].
    unfold lastSegment. by rewrite lastSegmentFrom_append.
  - by rewrite Hrun.
  - rewrite Hrun, <-getUserByPhoneNumber_None_iff. cbn [fst].
    destruct (getUserByPhoneNumber phone w).1 as [[u|]|] eqn:Hu;
      [by split| by split|by rewrite getUserByPhoneNumber_fst in Hu].
  - rewrite Hrun. cbn [fst].
    destruct (getUserByPhoneNumber phone w).1 as [[u|]|] eqn:Hu; [|done..].
    intros _. apply getUserByPhoneNumber_Some_inv in Hu as (k & Hk & Hpu).
    eauto.
Qed.

Lemma get_handlers_answer_a_stored_record_or_404_witness :
  getUserFunction (mkRequest "GET" "/getUser/+1B" noBody) scenario
  = (json 200 (JsonUser Bob), afterRead scenario).
Proof.
  destruct (get_handlers_answer_a_stored_record_or_404
              scenario "/getUser" "+1B") as (Hfunction & _).
  - done.
  - apply (bool_decide_unpack _). by vm_compute.
  - rewrite (Hfunction (mkRequest "GET" "/getUser/+1B" noBody));
      [by vm_compute|reflexivity|reflexivity].
Defined.

(** ** Directory changes and the next message *)

Lemma lookup_after_reroled p rs w u :
  (getUserByPhoneNumber p w).1 = Ok (Some u) →
  (getUserByPhoneNumber p
     (mkWorld (reroled p rs (users w)) (S (reads w))
              (commits w
               ++ [map (λ doc, BatchUpdateRoles doc.1 rs)
                       (where_phoneNumber p (users w))])
              (outbox w))).1
  = Ok (Some (withRoles rs u)).
Proof.
  rewrite !getUserByPhoneNumber_fst. cbn [users]. intros [= Hu].
  unfold reroled.
  rewrite (where_phoneNumber_fmap
    (λ u, if bool_decide (phoneNumber u = p) then withRoles rs u else u))
    by (by intros u'; case_bool_decide).
  destruct (where_phoneNumber p (users w)) as [|[k0 u0] l] eqn:Hsnap; [done|].
  injection Hu as ->. csimpl.
  assert ((k0, u) ∈ where_phoneNumber p (users w)) as Hin
    by (rewrite Hsnap; by left).
  apply list_elem_of_filter in Hin as [Hp _]. simpl in Hp.
  by rewrite bool_decide_eq_true_2.
Qed.

(** X19.  A replacement of roles decides how the next message of that
    number is routed.  After [updateUserRoles phone rs] on a number that
    resolves to a record, a message from [phone] is broadcast, signed with
    that record's name, when [rs] contains [STAFF] or the escalation role;
    escalated when it contains [SUBSCRIBER] and neither of them; and neither
    when it contains none of the three. *)
Theorem role_replacement_decides_the_next_routing
    gw (w : World) (phone : string) (rs : list string) (u : User)
    (message : string) :
  phone ≠ "" → message ≠ "" →
  (getUserByPhoneNumber phone w).1 = Ok (Some u) →
  let w' := (updateUserRoles phone rs w).2 in
  let r := handleSmsFunction gw
             (mkSmsRequest (Some phone) (Some message)) w' in
  let bc := broadcast gw w' phone (name u) message in
  let esc := escalation gw w' phone message in
  outbox w' = outbox w
  ∧ if bool_decide (Role.STAFF ∈ rs ∨ Role.SUPERVISOR ∈ rs)
    then outbox r.2 =
           outbox w ++ bc ++ confirmation gw w' bc phone broadcastDoneText
    else if bool_decide (Role.SUBSCRIBER ∈ rs)
    then outbox r.2 =
           outbox w ++ esc ++ confirmation gw w' esc phone forwardedText
    else outbox r.2 = outbox w.
Proof.
  intros Hp Hm Hu. cbv zeta.
  pose proof (getUserByPhoneNumber_Some_inv _ _ _ Hu) as (k & Hk & Hpu).
  assert (where_phoneNumber phone (users w) ≠ []) as Hne.
  { intros Hnil. by eapply (proj1 (where_phoneNumber_nil _ _) Hnil). }
  rewrite updateUserRoles_found by done. cbn [snd].
  pose proof (lookup_after_reroled phone rs w u Hu) as Hafter.
  set (w' := mkWorld _ _ _ _) in *.
  split; [done|]. change (outbox w) with (outbox w').
  repeat case_bool_decide.
  - rewrite (handleSms_originator_run gw w' _ _ (withRoles rs u)) by done.
    cbv zeta. cbn [name withRoles]. unfold confirmation.
    destruct (forallb delivered _); simpl; by rewrite ?app_nil_r.
  - rewrite (handleSms_subscriber_run gw w' _ _ (withRoles rs u))
      by (simpl; tauto).
    cbv zeta. unfold confirmation.
    destruct (forallb delivered _); simpl; by rewrite ?app_nil_r.
  - by rewrite (handleSms_roleless_run gw w' _ _ (withRoles rs u))
      by (simpl; tauto).
Qed.

Lemma role_replacement_decides_the_next_routing_witness :
  outbox (handleSmsFunction accepting
            (mkSmsRequest (Some "+1B") (Some "water is off"))
            (updateUserRoles "+1B" [Role.STAFF] raced).2).2
  = [mkSms "+1D" (broadcastText "Bob" "water is off") true;
     mkSms "+1B" broadcastDoneText true].
Proof.
  destruct (role_replacement_decides_the_next_routing
              accepting raced "+1B" [Role.STAFF] Bob "water is off")
    as [_ H].
  - done.
  - done.
  - by vm_compute.
  - vm_compute in H. vm_compute. exact H.
Defined.

(** X20.  A removed number is a stranger.  After [removeUser phone], a
    message from [phone] is escalated without any confirmation, no
    escalation and no broadcast, whoever sends it, hands the gateway an SMS
    for [phone]. *)
Theorem removed_number_is_a_stranger
    gw (w : World) (phone message : string) :
  phone ≠ "" → message ≠ "" →
  let w' := (removeUser phone w).2 in
  let r := handleSmsFunction gw
             (mkSmsRequest (Some phone) (Some message)) w' in
  outbox r.2 = outbox w ++ escalation gw w' phone message
  ∧ ∀ sender senderName text,
      Forall (λ s, to s ≠ phone) (escalation gw w' sender text)
      ∧ Forall (λ s, to s ≠ phone) (broadcast gw w' sender senderName text).
Proof.
  intros Hp Hm. cbv zeta. rewrite removeUser_run. cbn [snd].
  set (w' := mkWorld _ _ _ _).
  assert (∀ k u, users w' !! k = Some u → phoneNumber u ≠ phone) as Hgone.
  { intros k u Hk. cbn [users w'] in Hk. unfold without in Hk.
    by apply map_lookup_filter_Some in Hk as [_ Hk]. }
  split.
  - rewrite handleSms_unknown_run; [done..|].
    by apply getUserByPhoneNumber_None_iff.
  - intros sender senderName text. split.
    + apply Forall_forall.
      intros s (u & Hu & -> & _)%escalation_only_admins.
      apply elem_of_holding in Hu as [_ [k Hk]]. eauto.
    + apply Forall_forall. intros s Hs%elem_of_attempts.
      apply list_elem_of_fmap in Hs as (u & [= Hto _] & Hu).
      apply list_elem_of_filter in Hu as [_ Hu].
      apply elem_of_holding in Hu as [_ [k Hk]]. rewrite Hto. eauto.
Qed.

Lemma removed_number_is_a_stranger_witness :
  outbox (handleSmsFunction accepting
            (mkSmsRequest (Some "+1C") (Some "fire drill"))
            (removeUser "+1C" scenario).2).2
  = [mkSms "+1A" (escalationText "+1C" "fire drill") true].
Proof.
  refine (proj1 (removed_number_is_a_stranger
                   accepting scenario "+1C" "fire drill" _ _)).
  - done.
  - done.
Defined.





(** ** Instances of the properties above on the scenario directory *)

Lemma fanout_fulfilled_iff_every_send_was_accepted_witness :
  (forwardMessageToAdmins accepting "+1B" "help" scenario).1 = Ok tt
  ∧ (broadcastMessage accepting "+1C" "fire drill" scenario).1 = Ok tt.
Proof.
  split.
  - apply (proj1 (fanout_fulfilled_iff_every_send_was_accepted
                    accepting scenario "+1B" "help")).
    apply (bool_decide_unpack _). by vm_compute.
  - apply (proj1 (proj2 (fanout_fulfilled_iff_every_send_was_accepted
                           accepting scenario "+1C" "fire drill"))).
    apply (bool_decide_unpack _). by vm_compute.
Defined.

Lemma getUserByPhoneNumber_returns_the_first_match_witness :
  ∃ k, users raced !! k = Some Bob
       ∧ phoneNumber Bob = "+1B"
       ∧ ∀ k' u', users raced !! k' = Some u' → phoneNumber u' = "+1B" →
                  k ≤ k'.
Proof.
  apply (proj2 (proj2 (proj2
           (getUserByPhoneNumber_returns_the_first_match raced "+1B"))) Bob).
  by vm_compute.
Defined.

Lemma listUsersByRole_returns_exactly_the_holders_witness :
  ∃ us, listUsersByRole Role.SUPERVISOR scenario = (Ok us, afterRead scenario)
        ∧ Alice ∈ us.
Proof.
  destruct (listUsersByRole_returns_exactly_the_holders
              scenario Role.SUPERVISOR) as (us & Hrun & _ & Hin).
  exists us. split; [exact Hrun|].
  apply Hin. split; [by left|]. exists 0. by vm_compute.
Defined.

Lemma addUser_always_inserts_one_record_witness :
  users (addUser "Robert" "+1B" [Role.STAFF] scenario).2 !! 1 = Some Bob
  ∧ length (where_phoneNumber "+1B"
              (users (addUser "Robert" "+1B" [Role.STAFF] scenario).2)) = 2.
Proof.
  destruct (addUser_always_inserts_one_record
              scenario "Robert" "+1B" [Role.STAFF])
    as (_ & _ & _ & _ & _ & Hkept & Hcount).
  split.
  - apply Hkept. by vm_compute.
  - rewrite Hcount. by vm_compute.
Defined.

Lemma removeUser_then_lookup_witness :
  (getUserByPhoneNumber "+1A" (removeUser "+1B" scenario).2).1
  = Ok (Some Alice).
Proof.
  rewrite (proj2 (proj2 (removeUser_then_lookup scenario "+1B")) "+1A")
    by done.
  by vm_compute.
Defined.
